(** * NL-to-SQL: the chat front end and the generation pipeline it drives

    A shallow embedding of the TypeScript front end ([api/client.ts],
    [components/Chat.tsx], [AppShell.tsx], [components/SessionList.tsx])
    together with the pieces of the Python back end that the
    specification describes but that are not part of the sources at hand
    (the history store's trailing window, the output parser and the turn
    orchestrator).

    Conventions.
    - A JavaScript or Python string is a [string]: a sequence of code
      points below 256.
    - A JavaScript [number] that holds a database identifier or an HTTP
      status is a [Z]; [number | null] is [option Z].
    - An [async] function is split at its [await]: the synchronous prefix
      is one state transformer, the continuation another one that receives
      the [outcome] of the awaited promise.
    - React state is a record; a setter call is a record update, and a
      functional update [setX(prev => f prev)] applies [f] to the state of
      the moment the update runs. *)

From Stdlib Require Import ZArith List String Ascii Bool Arith Lia.
From Stdlib Require Import DecimalString DecimalZ.
Import ListNotations.

Local Open Scope string_scope.

(** ** Strings *)

Module Str.

Definition nl : string := String (ascii_of_nat 10) "".

(** The suffix of [s] that starts at index [n] ([s.slice(n)], [s[n:]]). *)
Fixpoint drop (n : nat) (s : string) : string :=
  match n, s with
  | O, _ => s
  | S n', String _ s' => drop n' s'
  | S _, EmptyString => EmptyString
  end.

(** The first occurrence of [pat] in [s], as the text before it and the
    text after it. *)
Fixpoint split_at (pat s : string) : option (string * string) :=
  if prefix pat s then Some ("", drop (length pat) s)
  else match s with
       | EmptyString => None
       | String c s' =>
           match split_at pat s' with
           | Some (before, after) => Some (String c before, after)
           | None => None
           end
       end.

Definition contains (pat s : string) : bool :=
  match split_at pat s with Some _ => true | None => false end.

Section Strip.

(** Removal of leading and trailing white space, for a given notion of
    white space: [String.prototype.trim] and Python's [str.strip] differ
    only there. *)
Variable space : ascii -> bool.

Fixpoint lstrip (s : string) : string :=
  match s with
  | EmptyString => EmptyString
  | String c s' => if space c then lstrip s' else s
  end.

Fixpoint rstrip (s : string) : string :=
  match s with
  | EmptyString => EmptyString
  | String c s' =>
      match rstrip s' with
      | EmptyString => if space c then EmptyString else String c EmptyString
      | r => String c r
      end
  end.

Definition strip (s : string) : string := rstrip (lstrip s).

End Strip.

Definition in_range (lo hi : nat) (c : ascii) : bool :=
  (lo <=? nat_of_ascii c)%nat && (nat_of_ascii c <=? hi)%nat.

(** ECMAScript WhiteSpace and LineTerminator below 256: TAB, LF, VT, FF,
    CR, SP and NBSP. *)
Definition js_space (c : ascii) : bool :=
  in_range 9 13 c || in_range 32 32 c || in_range 160 160 c.

(** Python's [str.isspace] below 256: TAB..CR, FS..US, SP, NEL, NBSP. *)
Definition py_space (c : ascii) : bool :=
  in_range 9 13 c || in_range 28 32 c || in_range 133 133 c
  || in_range 160 160 c.

(** [s.trim()] *)
Definition trim : string -> string := strip js_space.

(** [s.strip()] *)
Definition py_strip : string -> string := strip py_space.

(** [!s] on a string: only the empty string is falsy. *)
Definition falsy (s : string) : bool :=
  match s with EmptyString => true | String _ _ => false end.

(** A number inside a template literal: its decimal digits, with a sign
    when negative (integers of magnitude below 10^21). *)
Definition of_number (z : Z) : string :=
  NilEmpty.string_of_int (Z.to_int z).

End Str.

(** ** [api/client.ts] *)

Module Client.

(** A thrown JavaScript error object. *)
Record JsError := { name : string; message : string }.

(** [new Error(msg)] *)
Definition Error (msg : string) : JsError :=
  {| name := "Error"; message := msg |}.

(** How an awaited promise settles. *)
Inductive outcome (T : Type) : Type :=
| Resolved (v : T)
| Rejected (e : JsError).
Arguments Resolved {T} v.
Arguments Rejected {T} e.

(** The JSON texts the client sends are all flat objects.  A request
    body, which the source builds with [JSON.stringify], is kept as the
    object that is serialised: its members, in order. *)
Inductive JSONValue : Type :=
| JNull
| JNumber (z : Z)
| JString (s : string).

Definition JSONObject : Type := list (string * JSONValue).

(** An object member whose value may be [undefined]: [JSON.stringify]
    leaves such a member out. *)
Definition member {A : Type} (key : string) (enc : A -> JSONValue)
  (v : option A) : JSONObject :=
  match v with
  | Some a => [(key, enc a)]
  | None => []
  end.

Definition nullable (v : option Z) : JSONValue :=
  match v with Some z => JNumber z | None => JNull end.

(** [RequestInit]: every member is optional. *)
Record RequestInit := {
  method : option string;
  headers : option (list (string * string));
  body : option JSONObject;
  credentials : option string
}.

Definition no_options : RequestInit :=
  {| method := None; headers := None; body := None; credentials := None |}.

(** What [request] reads of a fetch [Response]: [res.ok], [res.status],
    the text [res.text()] resolves with, and how [res.json()] settles (it
    rejects when the body is not JSON); the cast [as T] types the parsed
    value. *)
Record Response (T : Type) := {
  ok : bool;
  status : Z;
  text : string;
  json : outcome T
}.
Arguments ok {T} _.
Arguments status {T} _.
Arguments text {T} _.
Arguments json {T} _.

(** The network: how [fetch(url, init)] settles. *)
Definition Fetch (T : Type) : Type :=
  string -> RequestInit -> outcome (Response T).

Inductive Role : Type := user | assistant | system.

Module Session.
Record t := {
  id : Z;
  title : option string;
  schema_id : option Z;
  created_at : string;
  updated_at : string
}.
End Session.

Module Schema.
Record t := {
  id : Z;
  name : string;
  description : option string;
  raw_schema : string;
  created_at : string;
  updated_at : string
}.
End Schema.

Module Message.
Record t := {
  id : Z;
  role : Role;
  content : string;
  created_at : string
}.
End Message.

Record ChatResponse := {
  sql : string;
  explanation : option string;
  raw_model_output : string
}.

(** The payload of [createSession]: [schema_id] may be absent, [null] or
    a number. *)
Record SessionPayload := {
  payload_title : option string;
  payload_schema_id : option (option Z)
}.

Section Api.

(** [API_BASE] comes from the build environment, with a default. *)
Variable API_BASE : string.

(** The object literal handed to [fetch]: the two defaults first, then
    the spread of [options], whose own members win. *)
Definition init_of (options : RequestInit) : RequestInit :=
  {| method := method options;
     headers := Some match headers options with
                     | Some h => h
                     | None => [("Content-Type", "application/json")]
                     end;
     body := body options;
     credentials := Some match credentials options with
                         | Some c => c
                         | None => "include"
                         end |}.

(** The part of [request] that runs once [fetch] has resolved. *)
Definition on_response {T : Type} (res : Response T) : outcome T :=
  if negb (ok res) then
    Rejected (Error ("Request failed (" ++ Str.of_number (status res)
                       ++ "): " ++ text res))
  else json res.

Definition request {T : Type} (fetch : Fetch T) (path : string)
  (options : RequestInit) : outcome T :=
  match fetch (API_BASE ++ path) (init_of options) with
  | Resolved res => on_response res
  | Rejected e => Rejected e
  end.

Definition messages_path (sessionId : Z) : string :=
  "/api/sessions/" ++ Str.of_number sessionId ++ "/messages".

Definition listMessages (fetch : Fetch (list Message.t)) (sessionId : Z)
  : outcome (list Message.t) :=
  request fetch (messages_path sessionId) no_options.

Definition sendMessage_init (content : string) : RequestInit :=
  {| method := Some "POST";
     headers := None;
     body := Some [("content", JString content)];
     credentials := None |}.

Definition sendMessage (fetch : Fetch ChatResponse) (sessionId : Z)
  (content : string) : outcome ChatResponse :=
  request fetch (messages_path sessionId) (sendMessage_init content).

Definition createSession_init (payload : SessionPayload) : RequestInit :=
  {| method := Some "POST";
     headers := None;
     body := Some (member "title" JString (payload_title payload)
                     ++ member "schema_id" nullable
                          (payload_schema_id payload))%list;
     credentials := None |}.

Definition createSession (fetch : Fetch Session.t)
  (payload : SessionPayload) : outcome Session.t :=
  request fetch "/api/sessions" (createSession_init payload).

End Api.

End Client.

(** ** [components/Chat.tsx] *)

Module Chat.

Import Client.

(** [UIMessage = Message & { isStreaming?: boolean }] *)
Module UIMessage.
Record t := {
  id : Z;
  role : Role;
  content : string;
  created_at : string;
  isStreaming : option bool
}.
End UIMessage.

(** The five [useState] cells of the component. *)
Record State := {
  messages : list UIMessage.t;
  input : string;
  loading : bool;
  error : option string;
  lastSql : option ChatResponse
}.

Definition initial : State :=
  {| messages := []; input := ""; loading := false; error := None;
     lastSql := None |}.

Definition setMessages (f : list UIMessage.t -> list UIMessage.t)
  (st : State) : State :=
  {| messages := f (messages st); input := input st; loading := loading st;
     error := error st; lastSql := lastSql st |}.

Definition setInput (v : string) (st : State) : State :=
  {| messages := messages st; input := v; loading := loading st;
     error := error st; lastSql := lastSql st |}.

Definition setLoading (v : bool) (st : State) : State :=
  {| messages := messages st; input := input st; loading := v;
     error := error st; lastSql := lastSql st |}.

Definition setError (v : option string) (st : State) : State :=
  {| messages := messages st; input := input st; loading := loading st;
     error := v; lastSql := lastSql st |}.

Definition setLastSql (v : option ChatResponse) (st : State) : State :=
  {| messages := messages st; input := input st; loading := loading st;
     error := error st; lastSql := v |}.

(** One reading of the clock: [Date.now()] and
    [new Date().toISOString()]. *)
Record Clock := { now : Z; iso : string }.

(** [!sessionId] on [number | null]: [null] and [0] are falsy. *)
Definition falsy (sessionId : option Z) : bool :=
  match sessionId with
  | None => true
  | Some z => (z =? 0)%Z
  end.

Definition optimisticMessage (c : Clock) (content : string) : UIMessage.t :=
  {| UIMessage.id := now c;
     UIMessage.role := user;
     UIMessage.content := content;
     UIMessage.created_at := iso c;
     UIMessage.isStreaming := None |}.

Definition assistantMessage (prefersReducedMotion : bool) (c : Clock)
  (res : ChatResponse) : UIMessage.t :=
  {| UIMessage.id := (now c + 1)%Z;
     UIMessage.role := assistant;
     UIMessage.content := sql res;
     UIMessage.created_at := iso c;
     UIMessage.isStreaming := Some (negb prefersReducedMotion) |}.

(** The arguments of a [sendMessage] call. *)
Record Send := { to_session : Z; with_content : string }.

(** [handleSubmit] up to its first [await]: the guard, the optimistic
    message, and the call that is about to be made (if any). *)
Definition handleSubmit_begin (sessionId : option Z) (c : Clock)
  (st : State) : State * option Send :=
  if falsy sessionId || Str.falsy (Str.trim (input st)) then (st, None)
  else
    match sessionId with
    | None => (st, None)
    | Some sid =>
        let st1 := setError None st in
        let content := Str.trim (input st1) in
        let st2 := setInput "" st1 in
        let st3 :=
          setMessages (fun prev => (prev ++ [optimisticMessage c content])%list)
            st2
        in
        (setLoading true st3,
         Some {| to_session := sid; with_content := content |})
    end.

(** [handleSubmit] from the point where [api.sendMessage] has settled:
    the rest of the [try] block or the [catch] block, then [finally].
    [prefersReducedMotion] is the value the closure captured at the submit
    event. *)
Definition handleSubmit_settle (prefersReducedMotion : bool) (c : Clock)
  (r : outcome ChatResponse) (st : State) : State :=
  setLoading false
    match r with
    | Resolved res =>
        setMessages
          (fun prev =>
             (prev ++ [assistantMessage prefersReducedMotion c res])%list)
          (setLastSql (Some res) st)
    | Rejected err => setError (Some (message err)) st
    end.

(** A whole run of [handleSubmit] with nothing else happening in
    between: [c1] is the clock at the submit event, [c2] the clock when the
    response has arrived. *)
Definition handleSubmit (API_BASE : string) (fetch : Fetch ChatResponse)
  (prefersReducedMotion : bool) (sessionId : option Z) (c1 c2 : Clock)
  (st : State) : State :=
  match handleSubmit_begin sessionId c1 st with
  | (st1, Some call) =>
      handleSubmit_settle prefersReducedMotion c2
        (sendMessage API_BASE fetch (to_session call) (with_content call))
        st1
  | (st1, None) => st1
  end.

(** The [useEffect] on [sessionId], up to its [await]. *)
Definition effect_begin (sessionId : option Z) (st : State)
  : State * option Z :=
  if falsy sessionId then
    (setLastSql None (setMessages (fun _ => []) st), None)
  else (st, sessionId).

Definition ui_of (m : Message.t) : UIMessage.t :=
  {| UIMessage.id := Message.id m;
     UIMessage.role := Message.role m;
     UIMessage.content := Message.content m;
     UIMessage.created_at := Message.created_at m;
     UIMessage.isStreaming := Some false |}.

(** The same effect once [api.listMessages] has settled. *)
Definition effect_settle (r : outcome (list Message.t)) (st : State)
  : State :=
  match r with
  | Resolved data => setMessages (fun _ => map ui_of data) st
  | Rejected err => setError (Some (message err)) st
  end.

(** [Composer]: the [disabled] attribute that the textarea and the
    submit button share. *)
Definition Composer_disabled (sessionId : option Z) (loading : bool)
  : bool :=
  match sessionId with None => true | Some _ => false end || loading.

(** *** The component as a transition system

    A mounted chat view: its props, its state, and the promises it is
    waiting for.  A pending [sendMessage] call remembers the
    [prefersReducedMotion] its [handleSubmit] closure captured. *)
Record Pending := { call : Send; captured_motion : bool }.

Record View := {
  sessionId : option Z;
  prefersReducedMotion : bool;
  state : State;
  sending : list Pending;
  listing : list Z
}.

Definition mount (sessionId : option Z) : View :=
  let '(st, load) := effect_begin sessionId initial in
  {| sessionId := sessionId;
     prefersReducedMotion := false;
     state := st;
     sending := [];
     listing := match load with Some sid => [sid] | None => [] end |}.

Inductive Event : Type :=
| Typed (v : string)
| Submitted (c : Clock)
| SendSettled (i : nat) (c : Clock) (r : outcome ChatResponse)
| SessionProp (sid : option Z)
| ListSettled (i : nat) (r : outcome (list Message.t))
| MotionPref (b : bool).

Definition same_session (a b : option Z) : bool :=
  match a, b with
  | None, None => true
  | Some x, Some y => (x =? y)%Z
  | _, _ => false
  end.

Fixpoint remove_nth {A : Type} (i : nat) (l : list A) : list A :=
  match i, l with
  | _, [] => []
  | O, _ :: l' => l'
  | S i', x :: l' => x :: remove_nth i' l'
  end.

Definition pending_of (motion : bool) (s : option Send) : list Pending :=
  match s with
  | Some s => [{| call := s; captured_motion := motion |}]
  | None => []
  end.

(** One event of the view's life; [None]: the event cannot happen in
    this view.  A submit event reaches [handleSubmit] only through the
    form's button or the Enter key of its textarea, and a disabled control
    dispatches neither; React re-renders before the next event.  Pending
    promises settle in any order. *)
Definition next (v : View) (e : Event) : option View :=
  match e with
  | Typed s =>
      Some {| sessionId := sessionId v;
              prefersReducedMotion := prefersReducedMotion v;
              state := setInput s (state v);
              sending := sending v;
              listing := listing v |}
  | Submitted c =>
      if Composer_disabled (sessionId v) (loading (state v)) then None
      else
        let '(st, s) := handleSubmit_begin (sessionId v) c (state v) in
        Some {| sessionId := sessionId v;
                prefersReducedMotion := prefersReducedMotion v;
                state := st;
                sending := (sending v
                            ++ pending_of (prefersReducedMotion v) s)%list;
                listing := listing v |}
  | SendSettled i c r =>
      match nth_error (sending v) i with
      | None => None
      | Some p =>
          Some {| sessionId := sessionId v;
                  prefersReducedMotion := prefersReducedMotion v;
                  state := handleSubmit_settle (captured_motion p) c r
                             (state v);
                  sending := remove_nth i (sending v);
                  listing := listing v |}
      end
  | SessionProp sid =>
      if same_session sid (sessionId v) then Some v
      else
        let '(st, load) := effect_begin sid (state v) in
        Some {| sessionId := sid;
                prefersReducedMotion := prefersReducedMotion v;
                state := st;
                sending := sending v;
                listing := (listing v
                            ++ match load with
                               | Some s => [s]
                               | None => []
                               end)%list |}
  | ListSettled i r =>
      match nth_error (listing v) i with
      | None => None
      | Some _ =>
          Some {| sessionId := sessionId v;
                  prefersReducedMotion := prefersReducedMotion v;
                  state := effect_settle r (state v);
                  sending := sending v;
                  listing := remove_nth i (listing v) |}
      end
  | MotionPref b =>
      Some {| sessionId := sessionId v;
              prefersReducedMotion := b;
              state := state v;
              sending := sending v;
              listing := listing v |}
  end.

Fixpoint run (v : View) (es : list Event) : option View :=
  match es with
  | [] => Some v
  | e :: es' =>
      match next v e with
      | Some v' => run v' es'
      | None => None
      end
  end.

(** The views a chat mounted on [sid0] can get into. *)
Definition reachable (sid0 : option Z) (v : View) : Prop :=
  exists es, run (mount sid0) es = Some v.

(** The events that neither replace the message list nor settle a
    [sendMessage] call: typing, a change of the motion preference, a
    failed load of the messages, and the selection of another session
    (whose messages are still to be loaded). *)
Definition quiet (e : Event) : bool :=
  match e with
  | Typed _ => true
  | MotionPref _ => true
  | ListSettled _ (Rejected _) => true
  | SessionProp sid => negb (falsy sid)
  | _ => false
  end.

(** The invariant of the view: the pending [sendMessage] calls are as
    many as the loading flag says, one or none. *)
Definition in_flight_matches (v : View) : Prop :=
  List.length (sending v) = if loading (state v) then 1%nat else 0%nat.

End Chat.

(** ** [AppShell.tsx] and [components/SessionList.tsx] *)

Module AppShell.

Import Client.

Record State := {
  ready : bool;
  schemas : list Schema.t;
  sessions : list Session.t;
  activeSessionId : option Z;
  activeSchemaId : option Z;
  error : option string
}.

Definition setSchemas (f : list Schema.t -> list Schema.t) (st : State)
  : State :=
  {| ready := ready st; schemas := f (schemas st); sessions := sessions st;
     activeSessionId := activeSessionId st;
     activeSchemaId := activeSchemaId st; error := error st |}.

Definition setSessions (f : list Session.t -> list Session.t) (st : State)
  : State :=
  {| ready := ready st; schemas := schemas st; sessions := f (sessions st);
     activeSessionId := activeSessionId st;
     activeSchemaId := activeSchemaId st; error := error st |}.

Definition setActiveSessionId (v : option Z) (st : State) : State :=
  {| ready := ready st; schemas := schemas st; sessions := sessions st;
     activeSessionId := v;
     activeSchemaId := activeSchemaId st; error := error st |}.

Definition setActiveSchemaId (v : option Z) (st : State) : State :=
  {| ready := ready st; schemas := schemas st; sessions := sessions st;
     activeSessionId := activeSessionId st;
     activeSchemaId := v; error := error st |}.

Definition setError (v : option string) (st : State) : State :=
  {| ready := ready st; schemas := schemas st; sessions := sessions st;
     activeSessionId := activeSessionId st;
     activeSchemaId := activeSchemaId st; error := v |}.

(** The request [handleCreateSession] makes: [initialSchemaId ?? undefined]
    turns [null] into an absent member. *)
Definition create_payload (initialSchemaId : option Z) : SessionPayload :=
  {| payload_title := Some "";
     payload_schema_id := option_map Some initialSchemaId |}.

(** [handleCreateSession], from the point where [createSession] has
    settled. *)
Definition handleCreateSession_settle (r : outcome Session.t) (st : State)
  : State :=
  match r with
  | Resolved session =>
      setActiveSchemaId (Session.schema_id session)
        (setActiveSessionId (Some (Session.id session))
           (setSessions (fun prev => session :: prev) st))
  | Rejected err => setError (Some (message err)) st
  end.

Definition handleCreateSession (API_BASE : string)
  (fetch : Fetch Session.t) (initialSchemaId : option Z) (st : State)
  : State :=
  handleCreateSession_settle
    (createSession API_BASE fetch (create_payload initialSchemaId)) st.

Definition handleSchemaCreated (schema : Schema.t) (st : State) : State :=
  setActiveSchemaId (Some (Schema.id schema))
    (setSchemas (fun prev => (prev ++ [schema])%list) st).

Definition handleChangeSchema (schemaId : option Z) (st : State) : State :=
  setActiveSchemaId schemaId st.

(** [SessionList]: the "New session" button calls
    [onCreate(activeSchemaId)]. *)
Definition SessionList_new (API_BASE : string) (fetch : Fetch Session.t)
  (st : State) : State :=
  handleCreateSession API_BASE fetch (activeSchemaId st) st.

(** [SessionList]: the schema [<select>] calls
    [onChangeSchema(value ? Number(value) : null)], where [value] is the
    empty string for the entry "None" and a schema's id otherwise. *)
Definition SessionList_select (selected : option Z) (st : State) : State :=
  handleChangeSchema selected st.

(** The shell and the chat view it renders as
    [<Chat sessionId={activeSessionId} />]. *)
Record App := { shell : State; chat : Chat.View }.

(** A re-render of the shell hands the chat its prop; the chat's effect
    runs when the prop differs from the one it had. *)
Definition render (st : State) (view : Chat.View) : App :=
  {| shell := st;
     chat := match Chat.next view (Chat.SessionProp (activeSessionId st)) with
             | Some view' => view'
             | None => view
             end |}.

Definition rendered (a : App) : Prop :=
  Chat.sessionId (chat a) = activeSessionId (shell a).

Definition onChangeSchema (schemaId : option Z) (a : App) : App :=
  render (handleChangeSchema schemaId (shell a)) (chat a).

End AppShell.

(** ** The generation pipeline of the back end

    The back end ([session_service.py], [model_service.py]) is not among
    the sources; the two operations below follow the specification. *)

Module Pipeline.

Import Client.

(** Modelled from the spec: a Turn of the data model (the back end's
    message rows are missing). *)
Record Turn := {
  sequence_id : Z;
  role : Role;
  text : string;
  created_at : Z
}.

(** Modelled from the spec: the History Store, whose implementation
    ([session_service.py]) is missing.  A session's history is its
    append-only log of turns, oldest first. *)
Definition History : Type := list Turn.

(** Modelled from the spec: the order of turns, by [created_at] and then
    by [sequence_id]. *)
Definition before (a b : Turn) : bool :=
  (created_at a <? created_at b)%Z
  || ((created_at a =? created_at b)%Z
      && (sequence_id a <? sequence_id b)%Z).

Fixpoint chronological (h : History) : bool :=
  match h with
  | [] => true
  | t :: h' => forallb (before t) h' && chronological h'
  end.

(** Modelled from the spec: [HistoryStore.append] (missing, as above). *)
Definition append (h : History) (t : Turn) : History := (h ++ [t])%list.

(** Modelled from the spec: [HistoryStore.last(session_id, n)] (missing,
    as above), the "most recent N" retrieval: the trailing [n] turns,
    oldest first. *)
Definition last (n : nat) (h : History) : History :=
  skipn (List.length h - n) h.

(** Modelled from the spec: the fixed size K of the context window. *)
Definition K : nat := 5.

(** Modelled from the spec: the ContextWindow of step 4 of the Turn
    Orchestrator (missing, as above): the trailing K turns of the history
    once the user turn has been appended. *)
Definition context_window (h : History) (user_turn : Turn) : History :=
  last K (append h user_turn).

(** Modelled from the spec: the GenerationResult of the data model. *)
Record GenerationResult := {
  sql : string;
  explanation : option string;
  raw_output : string
}.

(** Modelled from the spec: the delimiter of a fenced block, and the
    opening delimiter that carries the SQL language tag. *)
Definition fence : string := "```".

Definition sql_fence : string := "```sql".

(** Modelled from the spec: the interior of the first fenced block that
    [opening] opens (the Output Parser's scan; [model_service.py] is
    missing): the text between the first [opening] and the first closing
    delimiter after it. *)
Definition fenced_block (opening raw : string) : option string :=
  match Str.split_at opening raw with
  | Some (_, rest) =>
      match Str.split_at fence rest with
      | Some (interior, _) => Some interior
      | None => None
      end
  | None => None
  end.

(** Modelled from the spec: the Output Parser, [parse] of section 4.3
    (missing, as above): the SQL-tagged block first, then any fenced
    block, then the whole text; trimmed in each case; no explanation. *)
Definition parse (raw_output : string) : GenerationResult :=
  {| sql :=
       match fenced_block sql_fence raw_output with
       | Some interior => Str.py_strip interior
       | None =>
           match fenced_block fence raw_output with
           | Some interior => Str.py_strip interior
           | None => Str.py_strip raw_output
           end
       end;
     explanation := None;
     raw_output := raw_output |}.

(** Modelled from the spec: the text of the round-trip property, an
    SQL-tagged fenced block around [sql_statement], each on a line of its
    own. *)
Definition fenced_sql (sql_statement : string) : string :=
  sql_fence ++ Str.nl ++ sql_statement ++ Str.nl ++ fence.

(** Modelled from the spec: whether a text holds a fenced block at all,
    that is a delimiter and a second one after it. *)
Definition has_fenced_block (raw : string) : bool :=
  match Str.split_at fence raw with
  | Some (_, rest) => Str.contains fence rest
  | None => false
  end.

End Pipeline.

(** ** Sample data *)

Module Samples.

Import Client.

Definition base : string := "http://localhost:8000".

Definition answer : ChatResponse :=
  {| sql := "SELECT COUNT(*) FROM orders;";
     explanation := None;
     raw_model_output := "```sql SELECT COUNT(*) FROM orders; ```" |}.

(** A back end that answers every request with [answer]. *)
Definition fetch_ok : Fetch ChatResponse :=
  fun _ _ =>
    Resolved {| ok := true; status := 200; text := "";
                json := Resolved answer |}.

(** A back end whose generation step fails. *)
Definition fetch_500 : Fetch ChatResponse :=
  fun _ _ =>
    Resolved {| ok := false; status := 500;
                text := "Internal Server Error";
                json := Rejected {| name := "SyntaxError";
                                    message := "Unexpected token I" |} |}.

Definition error_500 : JsError :=
  Error "Request failed (500): Internal Server Error".

(** A successful response without a JSON body. *)
Definition no_content : Response ChatResponse :=
  {| ok := true; status := 204; text := "";
     json := Rejected {| name := "SyntaxError";
                         message := "Unexpected end of JSON input" |} |}.

Definition fetch_204 : Fetch ChatResponse := fun _ _ => Resolved no_content.

Definition clock1 : Chat.Clock :=
  {| Chat.now := 1700000000000; Chat.iso := "2023-11-14T22:13:20.000Z" |}.

Definition clock2 : Chat.Clock :=
  {| Chat.now := 1700000003000; Chat.iso := "2023-11-14T22:13:23.000Z" |}.

Definition asking : Chat.State :=
  Chat.setInput " how many orders? " Chat.initial.

Definition blank : Chat.State := Chat.setInput "   " Chat.initial.

(** A chat on session 7 whose question is on its way. *)
Definition waiting : list Chat.Event :=
  [Chat.ListSettled 0 (Resolved []); Chat.Typed "how many orders?";
   Chat.Submitted clock1].

Definition shell : AppShell.State :=
  {| AppShell.ready := true;
     AppShell.schemas := [];
     AppShell.sessions :=
       [{| Session.id := 7; Session.title := None;
           Session.schema_id := Some 3%Z;
           Session.created_at := "2023-11-14T22:00:00";
           Session.updated_at := "2023-11-14T22:00:00" |}];
     AppShell.activeSessionId := Some 7%Z;
     AppShell.activeSchemaId := Some 3%Z;
     AppShell.error := None |}.

Definition app : AppShell.App :=
  {| AppShell.shell := shell; AppShell.chat := Chat.mount (Some 7%Z) |}.

Definition turn (n : nat) : Pipeline.Turn :=
  {| Pipeline.sequence_id := Z.of_nat n;
     Pipeline.role := if Nat.even n then user else assistant;
     Pipeline.text := "";
     Pipeline.created_at := Z.of_nat (n / 2) |}.

(** Twelve prior turns and the question that follows them. *)
Definition history12 : Pipeline.History := map turn (seq 0 12).

Definition question12 : Pipeline.Turn := turn 12.

End Samples.

(** ** [api/client.ts], the other calls *)

Module Api.

Import Client.

Record AuthUser := { id : Z; email : string }.

Record Bootstrap := { user_id : Z }.

(** The payload of [createSchema]; [description] may be absent. *)
Record SchemaPayload := {
  name : string;
  description : option string;
  raw_schema : string
}.

Section Calls.

Variable API_BASE : string.

Definition bootstrapUser (fetch : Fetch Bootstrap) : outcome Bootstrap :=
  request API_BASE fetch "/api/users/bootstrap" no_options.

(** The options of [signup] and [login]:
    [JSON.stringify({ email, password })] as the body of a POST. *)
Definition auth_init (email password : string) : RequestInit :=
  {| method := Some "POST";
     headers := None;
     body := Some [("email", JString email); ("password", JString password)];
     credentials := None |}.

Definition signup (fetch : Fetch AuthUser) (email password : string)
  : outcome AuthUser :=
  request API_BASE fetch "/api/auth/signup" (auth_init email password).

Definition login (fetch : Fetch AuthUser) (email password : string)
  : outcome AuthUser :=
  request API_BASE fetch "/api/auth/login" (auth_init email password).

Definition logout_init : RequestInit :=
  {| method := Some "POST"; headers := None; body := None;
     credentials := None |}.

(** [logout] awaits [request<unknown>] and drops its value. *)
Definition logout {U : Type} (fetch : Fetch U) : outcome unit :=
  match request API_BASE fetch "/api/auth/logout" logout_init with
  | Resolved _ => Resolved tt
  | Rejected e => Rejected e
  end.

Definition me (fetch : Fetch AuthUser) : outcome AuthUser :=
  request API_BASE fetch "/api/auth/me" no_options.

Definition listSchemas (fetch : Fetch (list Schema.t))
  : outcome (list Schema.t) :=
  request API_BASE fetch "/api/schemas" no_options.

Definition createSchema_init (payload : SchemaPayload) : RequestInit :=
  {| method := Some "POST";
     headers := None;
     body := Some ([("name", JString (name payload))]
                   ++ member "description" JString (description payload)
                   ++ [("raw_schema", JString (raw_schema payload))])%list;
     credentials := None |}.

Definition createSchema (fetch : Fetch Schema.t) (payload : SchemaPayload)
  : outcome Schema.t :=
  request API_BASE fetch "/api/schemas" (createSchema_init payload).

Definition listSessions (fetch : Fetch (list Session.t))
  : outcome (list Session.t) :=
  request API_BASE fetch "/api/sessions" no_options.

End Calls.

End Api.

(** ** [components/Chat.tsx], what is rendered *)

Module ChatView.

Import Client Chat.

(** A child of the message log.  The empty anchor [<div ref={endRef} />]
    that ends the log shows nothing and is left out. *)
Inductive Row : Type :=
| SelectPrompt
| EmptyPrompt
| Bubble (label : string) (on_the_right : bool) (text : string)
| Typing.

Definition is_user (r : Role) : bool :=
  match r with user => true | _ => false end.

(** [ChatMessage] *)
Definition ChatMessage (m : UIMessage.t) : Row :=
  let isUser := is_user (UIMessage.role m) in
  Bubble (if isUser then "YOU" else "ENGINE") isUser (UIMessage.content m).

Definition is_null (sessionId : option Z) : bool :=
  match sessionId with None => true | Some _ => false end.

Definition when (b : bool) (r : Row) : list Row := if b then [r] else [].

(** [MessageList] *)
Definition MessageList (sessionId : option Z) (messages : list UIMessage.t)
  (loading : bool) : list Row :=
  when (is_null sessionId) SelectPrompt
  ++ when (negb (is_null sessionId)
           && (List.length messages =? 0)%nat && negb loading) EmptyPrompt
  ++ map ChatMessage messages
  ++ when (loading && negb (is_null sessionId)) Typing.

(** The log a view shows. *)
Definition log (v : View) : list Row :=
  MessageList (sessionId v) (messages (state v)) (loading (state v)).

Definition is_prompt (r : Row) : bool :=
  match r with SelectPrompt | EmptyPrompt => true | _ => false end.

Definition is_typing (r : Row) : bool :=
  match r with Typing => true | _ => false end.

Definition is_bubble (r : Row) : bool :=
  match r with Bubble _ _ _ => true | _ => false end.

(** The events other than a change of the input box (typing, or the
    click on a suggestion). *)
Definition untyped (e : Event) : bool :=
  match e with Typed _ => false | _ => true end.

(** What a pending [sendMessage] call of the chat always satisfies. *)
Definition well_posted (p : Pending) : Prop :=
  with_content (call p) <> ""
  /\ Str.trim (with_content (call p)) = with_content (call p)
  /\ to_session (call p) <> 0%Z.

End ChatView.

(** ** [AppShell.tsx], the initial load and the shell's events *)

Module Shell.

Import Client AppShell.

Definition initial : State :=
  {| ready := false; schemas := []; sessions := [];
     activeSessionId := None; activeSchemaId := None; error := None |}.

Definition setReady (v : bool) (st : State) : State :=
  {| ready := v; schemas := schemas st; sessions := sessions st;
     activeSessionId := activeSessionId st;
     activeSchemaId := activeSchemaId st; error := error st |}.

(** [Promise.all] of two promises: both values, or the reason of the
    promise that rejects first; when both reject, [second_first] tells
    which one did so first. *)
Definition promise_all {A B : Type} (a : outcome A) (b : outcome B)
  (second_first : bool) : outcome (A * B) :=
  match a, b with
  | Resolved x, Resolved y => Resolved (x, y)
  | Rejected e, Resolved _ => Rejected e
  | Resolved _, Rejected e => Rejected e
  | Rejected e1, Rejected e2 => Rejected (if second_first then e2 else e1)
  end.

(** The body of the mount effect once every await has settled: [boot]
    is how [bootstrapUser] settled and [lists] how the [Promise.all] did
    (it is started only after [boot] has resolved). *)
Definition load_settle (boot : outcome Api.Bootstrap)
  (lists : outcome (list Schema.t * list Session.t)) (st : State) : State :=
  setReady true
    match boot with
    | Rejected err => setError (Some (message err)) st
    | Resolved _ =>
        match lists with
        | Rejected err => setError (Some (message err)) st
        | Resolved (schemaList, sessionList) =>
            let st1 :=
              setSessions (fun _ => sessionList)
                (setSchemas (fun _ => schemaList) st) in
            match sessionList with
            | first :: _ =>
                setActiveSchemaId (Session.schema_id first)
                  (setActiveSessionId (Some (Session.id first)) st1)
            | [] => st1
            end
        end
    end.

(** The mount effect of [AppShell]. *)
Definition load (API_BASE : string) (fetch_boot : Fetch Api.Bootstrap)
  (fetch_schemas : Fetch (list Schema.t))
  (fetch_sessions : Fetch (list Session.t)) (second_first : bool)
  (st : State) : State :=
  load_settle (Api.bootstrapUser API_BASE fetch_boot)
    (promise_all (Api.listSchemas API_BASE fetch_schemas)
       (Api.listSessions API_BASE fetch_sessions) second_first)
    st.

(** What can happen to the shell, whose sidebar is live from the first
    render on: the mount effect settles (it does so once; the model lets
    it happen at any time), a create-session request settles, the schema
    form reports a new schema, the schema select changes, or the [i]-th
    row of the session list is clicked. *)
Inductive Event : Type :=
| Loaded (boot : outcome Api.Bootstrap)
    (lists : outcome (list Schema.t * list Session.t))
| Created (r : outcome Session.t)
| SchemaCreated (schema : Schema.t)
| SchemaSelected (selected : option Z)
| SessionClicked (i : nat).

Definition next (st : State) (e : Event) : option State :=
  match e with
  | Loaded boot lists => Some (load_settle boot lists st)
  | Created r => Some (handleCreateSession_settle r st)
  | SchemaCreated schema => Some (handleSchemaCreated schema st)
  | SchemaSelected selected => Some (SessionList_select selected st)
  | SessionClicked i =>
      match nth_error (sessions st) i with
      | Some s => Some (setActiveSessionId (Some (Session.id s)) st)
      | None => None
      end
  end.

Fixpoint run (st : State) (es : list Event) : option State :=
  match es with
  | [] => Some st
  | e :: es' =>
      match next st e with
      | Some st' => run st' es'
      | None => None
      end
  end.

(** The active session, if any, is one of the listed sessions. *)
Definition active_listed (st : State) : bool :=
  match activeSessionId st with
  | None => true
  | Some a => existsb (fun s => (Session.id s =? a)%Z) (sessions st)
  end.

Definition none_listed (st : State) : bool :=
  match sessions st with [] => true | _ :: _ => false end.

(** The events other than the settling of the mount effect. *)
Definition no_load (e : Event) : bool :=
  match e with Loaded _ _ => false | _ => true end.

End Shell.

(** ** [components/SchemaForm.tsx] *)

Module SchemaForm.

Import Client.

Record State := {
  name : string;
  description : string;
  rawSchema : string;
  submitting : bool;
  error : option string
}.

Definition initial : State :=
  {| name := ""; description := ""; rawSchema := ""; submitting := false;
     error := None |}.

Definition setSubmitting (v : bool) (st : State) : State :=
  {| name := name st; description := description st;
     rawSchema := rawSchema st; submitting := v; error := error st |}.

Definition setError (v : option string) (st : State) : State :=
  {| name := name st; description := description st;
     rawSchema := rawSchema st; submitting := submitting st; error := v |}.

Definition clear (st : State) : State :=
  {| name := ""; description := ""; rawSchema := "";
     submitting := submitting st; error := error st |}.

(** [description || undefined] *)
Definition or_undefined (s : string) : option string :=
  if Str.falsy s then None else Some s.

(** [handleSubmit] up to its [await]: the guard, the two setters and the
    payload of the [createSchema] call that is about to be made. *)
Definition handleSubmit_begin (st : State)
  : State * option Api.SchemaPayload :=
  if Str.falsy (name st) || Str.falsy (rawSchema st) then (st, None)
  else
    (setError None (setSubmitting true st),
     Some {| Api.name := name st;
             Api.description := or_undefined (description st);
             Api.raw_schema := rawSchema st |}).

(** [handleSubmit] once [createSchema] has settled: the new state and
    the schema [onCreated] is called with, if it is. *)
Definition handleSubmit_settle (r : outcome Schema.t) (st : State)
  : State * option Schema.t :=
  match r with
  | Resolved res => (setSubmitting false (clear st), Some res)
  | Rejected err =>
      (setSubmitting false (setError (Some (message err)) st), None)
  end.

(** A whole run of [handleSubmit] inside the shell, where [onCreated] is
    [handleSchemaCreated]. *)
Definition handleSubmit (API_BASE : string) (fetch : Fetch Schema.t)
  (shell : AppShell.State) (st : State) : AppShell.State * State :=
  match handleSubmit_begin st with
  | (st1, Some payload) =>
      match handleSubmit_settle (Api.createSchema API_BASE fetch payload) st1
      with
      | (st2, Some res) => (AppShell.handleSchemaCreated res shell, st2)
      | (st2, None) => (shell, st2)
      end
  | (st1, None) => (shell, st1)
  end.

End SchemaForm.

(** ** [hooks/useAuth.tsx] *)

Module Auth.

Import Client.

Record State := { user : option Api.AuthUser; loading : bool }.

Definition initial : State := {| user := None; loading := true |}.

Definition setUser (v : option Api.AuthUser) (st : State) : State :=
  {| user := v; loading := loading st |}.

Definition setLoading (v : bool) (st : State) : State :=
  {| user := user st; loading := v |}.

(** The mount effect of [AuthProvider], once [api.me()] has settled. *)
Definition effect_settle (r : outcome Api.AuthUser) (st : State) : State :=
  setLoading false
    match r with
    | Resolved current => setUser (Some current) st
    | Rejected _ => setUser None st
    end.

(** [handleLogin]: the new state and how the promise it returns
    settles. *)
Definition handleLogin (API_BASE : string) (fetch : Fetch Api.AuthUser)
  (email password : string) (st : State) : State * outcome unit :=
  match Api.login API_BASE fetch email password with
  | Resolved u => (setUser (Some u) st, Resolved tt)
  | Rejected e => (st, Rejected e)
  end.

Definition handleSignup (API_BASE : string) (fetch : Fetch Api.AuthUser)
  (email password : string) (st : State) : State * outcome unit :=
  match Api.signup API_BASE fetch email password with
  | Resolved u => (setUser (Some u) st, Resolved tt)
  | Rejected e => (st, Rejected e)
  end.

Definition handleLogout {U : Type} (API_BASE : string) (fetch : Fetch U)
  (st : State) : State * outcome unit :=
  match Api.logout API_BASE fetch with
  | Resolved _ => (setUser None st, Resolved tt)
  | Rejected e => (st, Rejected e)
  end.

(** The Logout button of [AppShell]: [logout().catch(() => {})]. *)
Definition logout_click {U : Type} (API_BASE : string) (fetch : Fetch U)
  (st : State) : State :=
  fst (handleLogout API_BASE fetch st).

End Auth.

(** ** [pages/LoginPage.tsx] and [pages/SignupPage.tsx]

    The two pages differ in the action they take from [useAuth] and in
    their texts; their state and their [handleSubmit] are the same. *)

Module AuthPage.

Import Client.

Record State := {
  email : string;
  password : string;
  loading : bool;
  error : option string
}.

Definition setLoading (v : bool) (st : State) : State :=
  {| email := email st; password := password st; loading := v;
     error := error st |}.

Definition setError (v : option string) (st : State) : State :=
  {| email := email st; password := password st; loading := loading st;
     error := v |}.

(** [handleSubmit] up to its [await]. *)
Definition handleSubmit_begin (st : State) : State :=
  setLoading true (setError None st).

(** [handleSubmit] once the action has settled: the new state and the
    path [navigate] is called with, if it is. *)
Definition handleSubmit_settle (r : outcome unit) (st : State)
  : State * option string :=
  match r with
  | Resolved _ => (setLoading false st, Some "/app")
  | Rejected err => (setLoading false (setError (Some (message err)) st), None)
  end.

(** A whole run of [handleSubmit] for a given action of the provider. *)
Definition handleSubmit
  (action : string -> string -> Auth.State -> Auth.State * outcome unit)
  (auth : Auth.State) (st : State) : Auth.State * State * option string :=
  let st1 := handleSubmit_begin st in
  let '(auth', r) := action (email st) (password st) auth in
  let '(st2, nav) := handleSubmit_settle r st1 in
  (auth', st2, nav).

End AuthPage.

Module LoginPage.

Definition handleSubmit (API_BASE : string)
  (fetch : Client.Fetch Api.AuthUser) :=
  AuthPage.handleSubmit (Auth.handleLogin API_BASE fetch).

End LoginPage.

Module SignupPage.

Definition handleSubmit (API_BASE : string)
  (fetch : Client.Fetch Api.AuthUser) :=
  AuthPage.handleSubmit (Auth.handleSignup API_BASE fetch).

End SignupPage.

(** ** The Turn Orchestrator of the back end

    The orchestrator ([routes/chat.py]) is not among the sources either;
    it follows section 4.4 of the specification. *)

Module Orchestrator.

Import Client Pipeline.

(** Modelled from the spec: the hard errors of section 7 (the route's
    code is missing). *)
Inductive TurnError : Type :=
| ValidationError
| NotFoundError
| ForbiddenError
| GenerationBackendError.

(** Modelled from the spec: the History Store as a whole (missing), the
    log of every session. *)
Definition Store : Type := Z -> History.

Section HandleTurn.

(** Modelled from the spec: the collaborators of section 6, taken as
    they come: the requesting identity, [SessionRegistry.resolve] (the
    schema binding of an owned session, or the error), [SchemaStore.get],
    the Context Assembler, the Generation Backend ([None]: it failed),
    what the History Store stamps a new turn with ([sequence_id] and
    [created_at]), and how an explanation is appended to the SQL. *)
Variable requester : Type.
Variable resolve : Z -> requester -> TurnError + option Z.
Variable get : Z -> option string.
Variable assemble : option string -> History -> string -> string.
Variable generate : string -> option string.
Variable stamp : History -> Z * Z.
Variable with_explanation : string -> string -> string.

(** Modelled from the spec: [HistoryStore.append(session_id, role, text)]
    (missing). *)
Definition store_append (s : Store) (session_id : Z) (r : Role)
  (text : string) : Store :=
  fun k =>
    if (k =? session_id)%Z then
      append (s k)
        {| sequence_id := fst (stamp (s k)); role := r; text := text;
           created_at := snd (stamp (s k)) |}
    else s k.

(** Modelled from the spec: steps 3 and 4 of [handle_turn], the prompt
    built from the bound schema's text and the trailing K turns. *)
Definition prompt_of (s : Store) (schema_id : option Z) (session_id : Z)
  (question : string) : string :=
  assemble match schema_id with Some id => get id | None => None end
    (last K (s session_id)) question.

(** Modelled from the spec: the text of the assistant turn of step 7. *)
Definition answer_text (r : GenerationResult) : string :=
  match explanation r with
  | None => sql r
  | Some e => with_explanation (sql r) e
  end.

(** Modelled from the spec: [handle_turn] of section 4.4 (missing), after
    the input check of section 6: validate, record the question, resolve
    the schema, build the context, generate, parse, record the answer. *)
Definition handle_turn (s : Store) (who : requester) (session_id : Z)
  (question : string) : Store * (TurnError + GenerationResult) :=
  if Str.falsy question then (s, inl ValidationError)
  else
    match resolve session_id who with
    | inl e => (s, inl e)
    | inr schema_id =>
        let s1 := store_append s session_id user question in
        match generate (prompt_of s1 schema_id session_id question) with
        | None => (s1, inl GenerationBackendError)
        | Some raw =>
            let r := parse raw in
            (store_append s1 session_id assistant (answer_text r), inr r)
        end
    end.

End HandleTurn.

End Orchestrator.

(** ** More sample data *)

Module Cases.

Import Client.

(** A question is posted on session 7 while the messages of the session
    are still being loaded; the load resolves, with an empty list, before
    the request fails. *)
Definition overtaken_failed : list Chat.Event :=
  [Chat.Typed "how many orders?"; Chat.Submitted Samples.clock1;
   Chat.ListSettled 0 (Resolved []);
   Chat.SendSettled 0 Samples.clock2 (Rejected Samples.error_500)].

(** The same, with a request that succeeds. *)
Definition overtaken_answered : list Chat.Event :=
  [Chat.Typed "how many orders?"; Chat.Submitted Samples.clock1;
   Chat.ListSettled 0 (Resolved []);
   Chat.SendSettled 0 Samples.clock2 (Resolved Samples.answer)].

(** A question on session 7, then typing, a change of the motion
    preference and the selection of session 8 while the request is
    pending. *)
Definition asked : list Chat.Event := [Chat.Typed " how many orders? "].

Definition meanwhile : list Chat.Event :=
  [Chat.Typed "and yesterday?"; Chat.MotionPref true;
   Chat.SessionProp (Some 8%Z)].

Definition session9 : Session.t :=
  {| Session.id := 9; Session.title := None; Session.schema_id := None;
     Session.created_at := "2023-11-14T22:10:00";
     Session.updated_at := "2023-11-14T22:10:00" |}.

(** "New session" is answered before the mount effect settles, and the
    session list the effect then gets is the one from before. *)
Definition created_before_load : list Shell.Event :=
  [Shell.Created (Resolved session9);
   Shell.Loaded (Resolved {| Api.user_id := 1 |}) (Resolved ([], []))].

(** A schema form that is ready to be saved. *)
Definition filled : SchemaForm.State :=
  {| SchemaForm.name := "shop";
     SchemaForm.description := "";
     SchemaForm.rawSchema := "CREATE TABLE orders(id INT);";
     SchemaForm.submitting := false;
     SchemaForm.error := None |}.

(** A back end that refuses the schema. *)
Definition fetch_409 : Fetch Schema.t :=
  fun _ _ =>
    Resolved {| ok := false; status := 409; text := "name taken";
                json := Rejected {| name := "SyntaxError";
                                    message := "Unexpected token n" |} |}.

End Cases.

(** * Properties *)

(** ** Strings *)

Example trim_ex : Str.trim ("  a b " ++ Str.nl) = "a b".
Proof. reflexivity. Qed.

Example of_number_ex :
  Str.of_number 42 = "42" /\ Str.of_number (-7) = "-7"
  /\ Str.of_number 0 = "0".
Proof. repeat split; reflexivity. Qed.

Example split_at_ex : Str.split_at "ab" "xxabyab" = Some ("xx", "yab").
Proof. reflexivity. Qed.

Example parse_ex :
  Pipeline.sql (Pipeline.parse (Pipeline.fenced_sql "SELECT 1;")) = "SELECT 1;"
  /\ Pipeline.sql (Pipeline.parse "no fences here") = "no fences here"
  /\ Pipeline.sql (Pipeline.parse "a ```x``` b ```sql y ``` c") = "y".
Proof. repeat split; reflexivity. Qed.

Section StringFacts.

Local Open Scope string_scope.

Lemma append_assoc (a b c : string) : (a ++ b) ++ c = a ++ b ++ c.
Proof.
  induction a as [|x a IH]; simpl; [reflexivity|].
  now rewrite IH.
Qed.

Lemma append_empty_r (a : string) : a ++ "" = a.
Proof.
  induction a as [|x a IH]; simpl; [reflexivity|].
  now rewrite IH.
Qed.

Lemma length_append (a b : string) :
  length (a ++ b) = (length a + length b)%nat.
Proof.
  induction a as [|x a IH]; simpl; [reflexivity|].
  now rewrite IH.
Qed.

Lemma append_cancel_r (t a b : string) : a ++ t = b ++ t -> a = b.
Proof.
  revert b; induction a as [|x a IH]; intros [|y b] H; simpl in H.
  - reflexivity.
  - apply (f_equal length) in H. simpl in H. rewrite length_append in H. lia.
  - apply (f_equal length) in H. simpl in H. rewrite length_append in H. lia.
  - injection H as -> H. f_equal. now apply IH.
Qed.

Lemma prefix_append (p s : string) : prefix p (p ++ s) = true.
Proof.
  induction p as [|x p IH]; simpl; [now destruct s|].
  destruct (ascii_dec x x) as [_|N]; [exact IH | now elim N].
Qed.

Lemma prefix_split (p s : string) :
  prefix p s = true -> s = p ++ Str.drop (length p) s.
Proof.
  revert s; induction p as [|x p IH]; intros [|y s] H; simpl in *;
    try reflexivity; try discriminate.
  destruct (ascii_dec x y) as [->|_]; [|discriminate].
  f_equal. now apply IH.
Qed.

Lemma drop_append (p s : string) : Str.drop (length p) (p ++ s) = s.
Proof. induction p as [|x p IH]; simpl; [reflexivity | exact IH]. Qed.

Lemma drop_append_le (n : nat) (a t : string) :
  (n <= length a)%nat -> Str.drop n (a ++ t) = Str.drop n a ++ t.
Proof.
  revert a; induction n as [|n IH]; intros a H; simpl.
  - reflexivity.
  - destruct a as [|x a]; simpl in *; [lia|].
    apply IH. lia.
Qed.

Lemma split_at_here (pat s : string) :
  prefix pat s = true ->
  Str.split_at pat s = Some ("", Str.drop (length pat) s).
Proof. intros P. destruct s; simpl in *; now rewrite P. Qed.

Lemma split_at_later (pat : string) (x : ascii) (s : string) :
  prefix pat (String x s) = false ->
  Str.split_at pat (String x s)
  = match Str.split_at pat s with
    | Some (before, after) => Some (String x before, after)
    | None => None
    end.
Proof. intros P. simpl in *. now rewrite P. Qed.

(** [split_at] returns an occurrence of the pattern. *)
Lemma split_at_sound (pat s a b : string) :
  Str.split_at pat s = Some (a, b) -> s = a ++ pat ++ b.
Proof.
  revert a b; induction s as [|x s IH]; intros a b H.
  - destruct (prefix pat "") eqn:P.
    + rewrite (split_at_here _ _ P) in H.
      injection H as <- <-. simpl. now apply prefix_split.
    + simpl in *. rewrite P in H. discriminate.
  - destruct (prefix pat (String x s)) eqn:P.
    + rewrite (split_at_here _ _ P) in H.
      injection H as <- <-. simpl. now apply prefix_split.
    + rewrite (split_at_later _ _ _ P) in H.
      destruct (Str.split_at pat s) as [[a' b']|] eqn:E; [|discriminate].
      injection H as <- <-. simpl. f_equal. now apply IH.
Qed.

(** [split_at] finds the pattern wherever there is an occurrence, and
    what it leaves after the first occurrence includes everything after
    any other one. *)
Lemma split_at_complete (pat a t : string) :
  exists a' w, Str.split_at pat (a ++ pat ++ t) = Some (a', w ++ t).
Proof.
  induction a as [|x a [a' [w IH]]].
  - exists "", "". simpl.
    rewrite (split_at_here _ _ (prefix_append pat t)).
    now rewrite drop_append.
  - destruct (prefix pat (String x a ++ pat ++ t)) eqn:P.
    + exists "", (Str.drop (length pat) (String x a ++ pat)).
      rewrite (split_at_here _ _ P). f_equal. f_equal.
      rewrite <- append_assoc.
      apply drop_append_le. rewrite length_append. lia.
    + change (String x a ++ pat ++ t) with (String x (a ++ pat ++ t)) in *.
      rewrite (split_at_later _ _ _ P), IH.
      now exists (String x a'), w.
Qed.

(** A string without an occurrence of the pattern has none in its
    tail and does not start with it. *)
Lemma contains_false_inv (pat : string) (x : ascii) (s : string) :
  Str.contains pat (String x s) = false ->
  prefix pat (String x s) = false /\ Str.contains pat s = false.
Proof.
  unfold Str.contains. intros H.
  destruct (prefix pat (String x s)) eqn:P.
  - now rewrite (split_at_here _ _ P) in H.
  - rewrite (split_at_later _ _ _ P) in H. split; [reflexivity|].
    now destruct (Str.split_at pat s) as [[? ?]|].
Qed.

Lemma contains_spec (pat s : string) :
  Str.contains pat s = true <-> exists a b, s = a ++ pat ++ b.
Proof.
  unfold Str.contains; split.
  - destruct (Str.split_at pat s) as [[a b]|] eqn:E; [|discriminate].
    intros _. exists a, b. now apply split_at_sound.
  - intros [a [b ->]].
    destruct (split_at_complete pat a b) as [a' [w ->]]. reflexivity.
Qed.

End StringFacts.

Section StripFacts.

Variable space : ascii -> bool.

Lemma rstrip_append_space (c : ascii) (s : string) :
  space c = true ->
  Str.rstrip space (s ++ String c "") = Str.rstrip space s.
Proof.
  intros Hc. induction s as [|x s IH]; simpl.
  - now rewrite Hc.
  - now rewrite IH.
Qed.

Lemma strip_append_space (c : ascii) (s : string) :
  space c = true ->
  Str.strip space (s ++ String c "") = Str.strip space s.
Proof.
  intros Hc. unfold Str.strip. induction s as [|x s IH]; simpl.
  - now rewrite Hc.
  - destruct (space x); [exact IH|].
    apply (rstrip_append_space c (String x s) Hc).
Qed.

Lemma strip_cons_space (c : ascii) (s : string) :
  space c = true -> Str.strip space (String c s) = Str.strip space s.
Proof. intros Hc. unfold Str.strip. simpl. now rewrite Hc. Qed.

End StripFacts.

(** ** The generation pipeline *)

Section ParserFacts.

Import Pipeline.

(** A text that does not start with the delimiter still does not when a
    line break and more text follow it. *)
Lemma prefix_fence_line (s t : string) :
  prefix fence s = false -> prefix fence (s ++ Str.nl ++ t) = false.
Proof.
  unfold fence.
  destruct s as [|a [|b [|c s]]]; cbn [prefix String.append Str.nl]; intros H;
    repeat match goal with
           | |- context [ascii_dec ?x ?y] => destruct (ascii_dec x y)
           end;
    try reflexivity; try discriminate; try exact H.
  destruct s; simpl in H; discriminate H.
Qed.

(** In a text without a delimiter that is followed by a line break and a
    delimiter, that delimiter is the first one. *)
Lemma split_at_closing_fence (s : string) :
  Str.contains fence s = false ->
  Str.split_at fence (s ++ Str.nl ++ fence) = Some (s ++ Str.nl, "").
Proof.
  induction s as [|x s IH]; intros H.
  - reflexivity.
  - destruct (contains_false_inv _ _ _ H) as [P C].
    change (String x s ++ Str.nl ++ fence)
      with (String x (s ++ Str.nl ++ fence)).
    rewrite split_at_later.
    + now rewrite (IH C).
    + apply (prefix_fence_line (String x s) fence P).
Qed.

Lemma fenced_block_fenced_sql (sql_statement : string) :
  Str.contains fence sql_statement = false ->
  fenced_block sql_fence (fenced_sql sql_statement)
  = Some (Str.nl ++ sql_statement ++ Str.nl).
Proof.
  intros H. unfold fenced_block, fenced_sql.
  rewrite (split_at_here _ _ (prefix_append sql_fence _)), drop_append.
  change (Str.nl ++ sql_statement ++ Str.nl ++ fence)
    with (String (ascii_of_nat 10) (sql_statement ++ Str.nl ++ fence)).
  rewrite split_at_later by reflexivity.
  now rewrite (split_at_closing_fence _ H).
Qed.

(** What [has_fenced_block] decides: two delimiters, one after the
    other. *)
Lemma has_fenced_block_spec (raw : string) :
  has_fenced_block raw = true
  <-> exists a b c, raw = a ++ fence ++ b ++ fence ++ c.
Proof.
  unfold has_fenced_block; split.
  - destruct (Str.split_at fence raw) as [[a rest]|] eqn:E; [|discriminate].
    intros C. apply contains_spec in C. destruct C as [b [c ->]].
    exists a, b, c. now apply split_at_sound.
  - intros [a [b [c ->]]].
    destruct (split_at_complete fence a (b ++ fence ++ c)) as [a' [w ->]].
    apply contains_spec. exists (w ++ b), c. now rewrite append_assoc.
Qed.

Lemma fenced_block_has (opening raw interior : string) :
  fenced_block (fence ++ opening) raw = Some interior ->
  has_fenced_block raw = true.
Proof.
  unfold fenced_block. intros H.
  destruct (Str.split_at (fence ++ opening) raw) as [[a rest]|] eqn:E1;
    [|discriminate].
  destruct (Str.split_at fence rest) as [[b c]|] eqn:E2; [|discriminate].
  apply split_at_sound in E1, E2. subst rest.
  apply has_fenced_block_spec. exists a, (opening ++ b), c.
  rewrite E1. now rewrite !append_assoc.
Qed.

End ParserFacts.

(** C4. Parser round trip: for a statement that does not contain the
    fence delimiter, parsing the SQL-tagged fenced block around it (the
    opening delimiter with its tag, a line break, the statement, a line
    break, the closing delimiter) gives a result whose [sql] is the
    statement stripped of surrounding white space. *)
Theorem parse_fenced_sql_roundtrip (sql_statement : string) :
  Str.contains Pipeline.fence sql_statement = false ->
  Pipeline.sql (Pipeline.parse (Pipeline.fenced_sql sql_statement))
  = Str.py_strip sql_statement.
Proof.
  intros H. unfold Pipeline.parse. simpl.
  rewrite (fenced_block_fenced_sql _ H).
  unfold Str.py_strip.
  change (Str.nl ++ sql_statement ++ Str.nl)
    with (String (ascii_of_nat 10)
            (sql_statement ++ String (ascii_of_nat 10) "")).
  rewrite strip_cons_space by reflexivity.
  now rewrite strip_append_space by reflexivity.
Qed.

Lemma parse_fenced_sql_roundtrip_witness :
  Str.contains Pipeline.fence "  SELECT `a` FROM t;  " = false
  /\ Pipeline.sql
       (Pipeline.parse (Pipeline.fenced_sql "  SELECT `a` FROM t;  "))
     = "SELECT `a` FROM t;".
Proof.
  split; [reflexivity|].
  exact (parse_fenced_sql_roundtrip "  SELECT `a` FROM t;  " eq_refl).
Defined.

(** C5. The output parser is total: every input has a result, which
    carries the input as [raw_output] and no explanation; when the input
    holds no fenced block at all the result's [sql] is the whole input,
    trimmed; and the empty input gives the empty [sql]. *)
Theorem parse_total_fallback (raw : string) :
  Pipeline.has_fenced_block raw = false ->
  Pipeline.parse raw
  = {| Pipeline.sql := Str.py_strip raw;
       Pipeline.explanation := None;
       Pipeline.raw_output := raw |}
  /\ Pipeline.sql (Pipeline.parse "") = "".
Proof.
  intros H. split; [|reflexivity].
  unfold Pipeline.parse. f_equal.
  destruct (Pipeline.fenced_block Pipeline.sql_fence raw) as [i|] eqn:E1.
  - apply (fenced_block_has "sql") in E1. congruence.
  - destruct (Pipeline.fenced_block Pipeline.fence raw) as [i|] eqn:E2;
      [|reflexivity].
    apply (fenced_block_has "") in E2. congruence.
Qed.

Lemma parse_total_fallback_witness :
  Pipeline.has_fenced_block "no fences here" = false
  /\ Pipeline.parse "no fences here"
     = {| Pipeline.sql := "no fences here";
          Pipeline.explanation := None;
          Pipeline.raw_output := "no fences here" |}.
Proof.
  split; [reflexivity|].
  exact (proj1 (parse_total_fallback "no fences here" eq_refl)).
Defined.

Section WindowFacts.

Import Pipeline.

Lemma last_length (n : nat) (h : History) :
  (n <= List.length h)%nat -> List.length (last n h) = n.
Proof. intros H. unfold last. rewrite length_skipn. lia. Qed.

Lemma last_suffix (n : nat) (h : History) :
  (firstn (List.length h - n) h ++ last n h)%list = h.
Proof. apply firstn_skipn. Qed.

Lemma last_append (n : nat) (h : History) (t : Turn) :
  (n <= List.length h)%nat ->
  last (S n) (append h t) = (last n h ++ [t])%list.
Proof.
  intros H. unfold last, append.
  rewrite length_app, skipn_app. simpl List.length.
  replace (List.length h + 1 - S n)%nat with (List.length h - n)%nat by lia.
  replace (List.length h - n - List.length h)%nat with 0%nat by lia.
  reflexivity.
Qed.

Lemma chronological_suffix (older recent : History) :
  chronological (older ++ recent)%list = true -> chronological recent = true.
Proof.
  induction older as [|t older IH]; simpl; intros H; [exact H|].
  apply andb_true_iff in H. now apply IH.
Qed.

End WindowFacts.

(** C3. The context window of a generation prompt is the trailing K = 5
    turns of the session's history, the just-appended user turn included:
    for a session with at least 5 prior turns it holds exactly 5 turns,
    they are the end of the history (the most recent ones, in the order of
    the history, oldest first), and the new user turn is the last of
    them. *)
Theorem context_window_trailing (h : Pipeline.History) (u : Pipeline.Turn) :
  (5 <= List.length h)%nat ->
  let w := Pipeline.context_window h u in
  List.length w = 5%nat
  /\ (exists older, Pipeline.append h u = (older ++ w)%list)
  /\ w = (Pipeline.last 4 h ++ [u])%list
  /\ (Pipeline.chronological (Pipeline.append h u) = true ->
      Pipeline.chronological w = true).
Proof.
  intros H w. subst w. unfold Pipeline.context_window, Pipeline.K.
  assert (E : (firstn (List.length (Pipeline.append h u) - 5)
                 (Pipeline.append h u)
               ++ Pipeline.last 5 (Pipeline.append h u))%list
              = Pipeline.append h u) by apply last_suffix.
  repeat split.
  - apply last_length. unfold Pipeline.append. rewrite length_app. simpl. lia.
  - eexists. symmetry. exact E.
  - apply last_append. lia.
  - intros C. rewrite <- E in C. now apply chronological_suffix in C.
Qed.

Lemma context_window_trailing_witness :
  (5 <= List.length Samples.history12)%nat
  /\ Pipeline.context_window Samples.history12 Samples.question12
     = map Samples.turn [8; 9; 10; 11; 12]%nat.
Proof.
  split; [vm_compute; lia|].
  destruct (context_window_trailing Samples.history12 Samples.question12)
    as [_ [_ [E _]]]; [vm_compute; lia|].
  rewrite E. reflexivity.
Defined.

(** ** The chat view *)

Section ChatFacts.

Import Client Chat.

Lemma falsy_trim (s : string) : Str.falsy s = false <-> s <> "".
Proof. destruct s; simpl; split; congruence. Qed.

Lemma falsy_session (sid : Z) : falsy (Some sid) = false <-> sid <> 0%Z.
Proof. simpl. apply Z.eqb_neq. Qed.

(** What the synchronous part of [handleSubmit] does once its guard has
    let the submission through. *)
Lemma handleSubmit_begin_accepts (sid : Z) (c : Clock) (st : State) :
  sid <> 0%Z -> Str.trim (input st) <> "" ->
  handleSubmit_begin (Some sid) c st
  = ({| messages := messages st
                    ++ [optimisticMessage c (Str.trim (input st))];
        input := "";
        loading := true;
        error := None;
        lastSql := lastSql st |},
     Some {| to_session := sid; with_content := Str.trim (input st) |}).
Proof.
  intros Hs Hi. unfold handleSubmit_begin.
  apply falsy_session in Hs. apply falsy_trim in Hi.
  rewrite Hs, Hi. reflexivity.
Qed.

Lemma handleSubmit_begin_rejects (sessionId : option Z) (c : Clock)
  (st : State) :
  falsy sessionId || Str.falsy (Str.trim (input st)) = true ->
  handleSubmit_begin sessionId c st = (st, None).
Proof. intros H. unfold handleSubmit_begin. now rewrite H. Qed.

(** The synchronous part of [handleSubmit] issues a call exactly when it
    raises the loading flag, and otherwise leaves the flag alone. *)
Lemma handleSubmit_begin_loading (sessionId : option Z) (c : Clock)
  (st : State) :
  match handleSubmit_begin sessionId c st with
  | (st', Some _) => loading st' = true
  | (st', None) => st' = st
  end.
Proof.
  unfold handleSubmit_begin.
  destruct (falsy sessionId || Str.falsy (Str.trim (input st)));
    [reflexivity|].
  destruct sessionId; reflexivity.
Qed.

(** [handleSubmit] itself does not look at the loading flag: what keeps
    a second call from starting is the disabled form. *)
Remark handleSubmit_ignores_loading (sid : Z) (c : Clock) (st : State) :
  sid <> 0%Z -> Str.trim (input st) <> "" ->
  snd (handleSubmit_begin (Some sid) c (setLoading true st))
  = Some {| to_session := sid; with_content := Str.trim (input st) |}.
Proof.
  intros Hs Hi.
  now rewrite (handleSubmit_begin_accepts sid c (setLoading true st) Hs Hi).
Qed.

Lemma remove_nth_length {A : Type} (i : nat) (l : list A) (x : A) :
  nth_error l i = Some x ->
  List.length l = S (List.length (remove_nth i l)).
Proof.
  revert i; induction l as [|y l IH]; intros [|i] H; simpl in *;
    try discriminate; [reflexivity|].
  f_equal. now apply IH.
Qed.

Lemma mount_in_flight (sid0 : option Z) : in_flight_matches (mount sid0).
Proof.
  unfold in_flight_matches, mount, effect_begin.
  destruct (falsy sid0); reflexivity.
Qed.

Lemma next_in_flight (v v' : View) (e : Event) :
  in_flight_matches v -> next v e = Some v' -> in_flight_matches v'.
Proof.
  unfold in_flight_matches. intros I H.
  destruct e as [s|c|i c r|sid|i r|b]; simpl in H.
  - injection H as <-. exact I.
  - destruct (Composer_disabled (sessionId v) (loading (state v))) eqn:D;
      [discriminate|].
    apply orb_false_iff in D. destruct D as [_ L]. rewrite L in I.
    pose proof (handleSubmit_begin_loading (sessionId v) c (state v)) as B.
    destruct (handleSubmit_begin (sessionId v) c (state v)) as [st [s|]].
    + injection H as <-. simpl. rewrite B, length_app, I. reflexivity.
    + injection H as <-. simpl. rewrite B, L, length_app, I. reflexivity.
  - destruct (nth_error (sending v) i) as [p|] eqn:N; [|discriminate].
    injection H as <-. simpl.
    apply remove_nth_length in N. rewrite N in I.
    destruct (loading (state v)); [|discriminate].
    injection I as I. destruct r; exact I.
  - destruct (same_session sid (sessionId v)); [injection H as <-; exact I|].
    unfold effect_begin in H.
    destruct (falsy sid); injection H as <-; exact I.
  - destruct (nth_error (listing v) i); [|discriminate].
    injection H as <-. destruct r; exact I.
  - injection H as <-. exact I.
Qed.

Lemma run_in_flight (es : list Event) (v v' : View) :
  in_flight_matches v -> run v es = Some v' -> in_flight_matches v'.
Proof.
  revert v; induction es as [|e es IH]; simpl; intros v I H.
  - now injection H as <-.
  - destruct (next v e) as [v1|] eqn:N; [|discriminate].
    exact (IH v1 (next_in_flight _ _ _ I N) H).
Qed.

(** The two halves of [handleSubmit], as the view runs them, make up
    [handleSubmit]. *)
Lemma run_handleSubmit (API_BASE : string) (fetch : Fetch ChatResponse)
  (v : View) (sid : Z) (c1 c2 : Clock) :
  sessionId v = Some sid -> sid <> 0%Z ->
  Str.trim (input (state v)) <> "" ->
  loading (state v) = false -> sending v = [] ->
  exists v',
    run v [Submitted c1;
           SendSettled 0 c2
             (sendMessage API_BASE fetch sid (Str.trim (input (state v))))]
    = Some v'
    /\ state v'
       = handleSubmit API_BASE fetch (prefersReducedMotion v) (Some sid)
           c1 c2 (state v)
    /\ sending v' = [].
Proof.
  intros S Hs Hi L E. unfold run, next, handleSubmit.
  rewrite S, L, E. simpl Composer_disabled. cbv iota.
  rewrite (handleSubmit_begin_accepts sid c1 (state v) Hs Hi).
  eexists. split; [reflexivity|]. split; reflexivity.
Qed.

Lemma next_quiet (v v' : View) (e : Event) :
  quiet e = true -> next v e = Some v' ->
  messages (state v') = messages (state v) /\ sending v' = sending v.
Proof.
  intros Q H. destruct e as [s|c|i c r|sid|i r|b]; simpl in Q, H;
    try discriminate.
  - injection H as <-. now split.
  - destruct (same_session sid (sessionId v));
      [injection H as <-; now split|].
    unfold effect_begin in H. apply negb_true_iff in Q. rewrite Q in H.
    injection H as <-. now split.
  - destruct r as [data|err]; [discriminate|].
    destruct (nth_error (listing v) i); [|discriminate].
    injection H as <-. now split.
  - injection H as <-. now split.
Qed.

Lemma run_quiet (es : list Event) (v v' : View) :
  forallb quiet es = true -> run v es = Some v' ->
  messages (state v') = messages (state v) /\ sending v' = sending v.
Proof.
  revert v; induction es as [|e es IH]; simpl; intros v Q H.
  - injection H as <-. now split.
  - apply andb_true_iff in Q. destruct Q as [Qe Qs].
    destruct (next v e) as [v1|] eqn:N; [|discriminate].
    destruct (IH v1 Qs H) as [M S]. rewrite M, S.
    exact (next_quiet v v1 e Qe N).
Qed.

(** X1. One submission, from the submit event to the settling of its
    request, with quiet events in between (typing, a change of the motion
    preference, a failed load, the selection of another session): the
    message list gains the user's message and, when the request succeeds,
    the assistant's message after it, built with the motion preference of
    the moment of the submit event. *)
Lemma submission_with_quiet_events (v v1 v2 v3 : View) (sid : Z)
  (c1 c2 : Clock) (es : list Event) (r : outcome ChatResponse) :
  sessionId v = Some sid -> sid <> 0%Z ->
  Str.trim (input (state v)) <> "" ->
  sending v = [] ->
  next v (Submitted c1) = Some v1 ->
  forallb quiet es = true -> run v1 es = Some v2 ->
  next v2 (SendSettled 0 c2 r) = Some v3 ->
  messages (state v3)
  = (messages (state v)
     ++ optimisticMessage c1 (Str.trim (input (state v)))
        :: match r with
           | Resolved res => [assistantMessage (prefersReducedMotion v) c2 res]
           | Rejected _ => []
           end)%list.
Proof.
  intros S Hs Hi E N1 Q R N3.
  unfold next in N1. rewrite S in N1.
  rewrite (handleSubmit_begin_accepts sid c1 (state v) Hs Hi), E in N1.
  destruct (Composer_disabled _ _); [discriminate|].
  injection N1 as <-.
  destruct (run_quiet es _ _ Q R) as [M P]. simpl in M, P.
  unfold next in N3. rewrite P in N3. simpl in N3. injection N3 as <-.
  destruct r as [res|err]; simpl; rewrite M.
  - now rewrite <- app_assoc.
  - reflexivity.
Qed.

End ChatFacts.

(** C7. Empty input is rejected before any state is touched: when the
    submission targets no session, or its content is empty once trimmed,
    [handleSubmit] makes no [sendMessage] call and leaves the messages and
    every other state cell as they were. *)
Theorem handleSubmit_rejects_empty (sessionId : option Z) (c : Chat.Clock)
  (st : Chat.State) :
  sessionId = None \/ Str.trim (Chat.input st) = "" ->
  Chat.handleSubmit_begin sessionId c st = (st, None)
  /\ (forall API_BASE fetch motion c2,
        Chat.handleSubmit API_BASE fetch motion sessionId c c2 st = st)
  /\ (forall v v',
        Chat.sessionId v = sessionId -> Chat.state v = st ->
        Chat.next v (Chat.Submitted c) = Some v' -> v' = v).
Proof.
  intros H.
  assert (B : Chat.handleSubmit_begin sessionId c st = (st, None)).
  { apply handleSubmit_begin_rejects.
    destruct H as [-> | ->]; [reflexivity | apply orb_true_r]. }
  split; [exact B|]. split.
  - intros. unfold Chat.handleSubmit. now rewrite B.
  - intros v v' <- <- N. simpl in N. rewrite B in N.
    destruct (Chat.Composer_disabled _ _); [discriminate|].
    injection N as <-. destruct v; simpl. now rewrite app_nil_r.
Qed.

Lemma handleSubmit_rejects_empty_witness :
  (Some 7%Z = None \/ Str.trim (Chat.input Samples.blank) = "")
  /\ Chat.handleSubmit Samples.base Samples.fetch_ok false (Some 7%Z)
       Samples.clock1 Samples.clock2 Samples.blank
     = Samples.blank.
Proof.
  assert (H : Some 7%Z = None \/ Str.trim (Chat.input Samples.blank) = "")
    by (right; reflexivity).
  split; [exact H|].
  exact (proj1 (proj2 (handleSubmit_rejects_empty (Some 7%Z) Samples.clock1
                         Samples.blank H))
           Samples.base Samples.fetch_ok false Samples.clock2).
Defined.

Section SubmissionFacts.

Import Client Chat.

(** Quiet events leave alone what a pending submission will find. *)
Lemma next_quiet_frame (v v' : View) (e : Event) :
  quiet e = true -> next v e = Some v' ->
  messages (state v') = messages (state v)
  /\ sending v' = sending v
  /\ lastSql (state v') = lastSql (state v)
  /\ loading (state v') = loading (state v).
Proof.
  intros Q H. destruct e as [s|c|i c r|sid|i r|b]; simpl in Q, H;
    try discriminate.
  - injection H as <-. now repeat split.
  - destruct (same_session sid (sessionId v));
      [injection H as <-; now repeat split|].
    unfold effect_begin in H. apply negb_true_iff in Q. rewrite Q in H.
    injection H as <-. now repeat split.
  - destruct r as [data|err]; [discriminate|].
    destruct (nth_error (listing v) i); [|discriminate].
    injection H as <-. now repeat split.
  - injection H as <-. now repeat split.
Qed.

Lemma run_quiet_frame (es : list Event) (v v' : View) :
  forallb quiet es = true -> run v es = Some v' ->
  messages (state v') = messages (state v)
  /\ sending v' = sending v
  /\ lastSql (state v') = lastSql (state v)
  /\ loading (state v') = loading (state v).
Proof.
  revert v; induction es as [|e es IH]; simpl; intros v Q H.
  - injection H as <-. now repeat split.
  - apply andb_true_iff in Q. destruct Q as [Qe Qs].
    destruct (next v e) as [v1|] eqn:N; [|discriminate].
    destruct (IH v1 Qs H) as [M [S [L G]]]. rewrite M, S, L, G.
    exact (next_quiet_frame v v1 e Qe N).
Qed.

(** The view right after a submit event that the guard lets through,
    in a view the chat can be in. *)
Lemma submitted_view (sid0 : option Z) (v v1 : View) (sid : Z) (c : Clock) :
  reachable sid0 v -> sessionId v = Some sid -> sid <> 0%Z ->
  Str.trim (input (state v)) <> "" ->
  next v (Submitted c) = Some v1 ->
  state v1
  = {| messages := messages (state v)
                   ++ [optimisticMessage c (Str.trim (input (state v)))];
       input := "";
       loading := true;
       error := None;
       lastSql := lastSql (state v) |}
  /\ sending v1
     = [{| call := {| to_session := sid;
                      with_content := Str.trim (input (state v)) |};
           captured_motion := prefersReducedMotion v |}].
Proof.
  intros [es0 R] S Hs Hi N.
  pose proof (run_in_flight es0 _ _ (mount_in_flight sid0) R) as I.
  unfold in_flight_matches in I.
  unfold next in N. rewrite S in N.
  rewrite (handleSubmit_begin_accepts sid c (state v) Hs Hi) in N.
  destruct (Composer_disabled (Some sid) (loading (state v))) eqn:D;
    [discriminate|].
  unfold Composer_disabled in D. simpl in D. rewrite D in I.
  destruct (sending v); [|discriminate I].
  injection N as <-. now split.
Qed.

End SubmissionFacts.







(** C10. At most one turn submission is in flight per chat view: in
    every view the chat can get into, at most one [sendMessage] call is
    pending; one is pending exactly when the loading flag is up; and while
    the flag is up the textarea and the send button are disabled, so that
    no submit event can start another call. *)
Theorem one_submission_in_flight (sid0 : option Z) (v : Chat.View) :
  Chat.reachable sid0 v ->
  (List.length (Chat.sending v) <= 1)%nat
  /\ (Chat.sending v <> [] <-> Chat.loading (Chat.state v) = true)
  /\ (Chat.loading (Chat.state v) = true ->
      Chat.Composer_disabled (Chat.sessionId v) (Chat.loading (Chat.state v))
      = true
      /\ forall c, Chat.next v (Chat.Submitted c) = None).
Proof.
  intros [es R].
  pose proof (run_in_flight es _ _ (mount_in_flight sid0) R) as I.
  unfold Chat.in_flight_matches in I.
  destruct (Chat.loading (Chat.state v)) eqn:L.
  - split; [lia|]. split.
    + split; [reflexivity|]. intros _ E. rewrite E in I. discriminate.
    + intros _. split; [apply orb_true_r|].
      intros c. unfold Chat.next, Chat.Composer_disabled.
      now rewrite L, orb_true_r.
  - split; [lia|]. split; [|discriminate].
    split; [|discriminate].
    intros N. destruct (Chat.sending v); [now elim N | discriminate].
Qed.

Lemma one_submission_in_flight_witness :
  exists v,
    Chat.run (Chat.mount (Some 7%Z)) Samples.waiting = Some v
    /\ List.length (Chat.sending v) = 1%nat
    /\ Chat.next v (Chat.Submitted Samples.clock2) = None.
Proof.
  eexists. split; [reflexivity|].
  split; [reflexivity|].
  refine (proj2 (proj2 (proj2 (one_submission_in_flight (Some 7%Z) _
                                 (ex_intro _ Samples.waiting eq_refl)))
                   eq_refl) Samples.clock2).
Defined.

(** ** The API client *)

Section ClientFacts.

Import Client.

Lemma of_number_inj (z z' : Z) : Str.of_number z = Str.of_number z' -> z = z'.
Proof.
  unfold Str.of_number. intros H.
  apply (f_equal NilEmpty.int_of_string) in H.
  rewrite !NilEmpty.isi in H. injection H as H.
  now apply DecimalZ.to_int_inj.
Qed.

(** The messages path names its session: two sessions never share it. *)
Lemma messages_path_inj (a b : Z) : messages_path a = messages_path b -> a = b.
Proof.
  unfold messages_path. intros H.
  apply of_number_inj, (append_cancel_r "/messages").
  cbn [String.append] in H. now repeat injection H as H.
Qed.

Lemma request_resolved {T : Type} (API_BASE : string) (fetch : Fetch T)
  (path : string) (options : RequestInit) (res : Response T) :
  fetch (API_BASE ++ path) (init_of options) = Resolved res ->
  request API_BASE fetch path options = on_response res.
Proof. intros H. unfold request. now rewrite H. Qed.

End ClientFacts.

(** C6. The wire contract of a turn submission: [sendMessage] makes one
    request, a POST to the messages path of the session, a path that no
    other session shares, with the JSON object whose only member is
    [content]; and whatever it resolves with is the response's parsed
    body, a record of [sql], [explanation] (possibly null) and
    [raw_model_output], of a response whose status is ok. *)
Theorem sendMessage_wire (API_BASE : string)
  (fetch : Client.Fetch Client.ChatResponse) (sessionId : Z)
  (content : string) :
  Client.sendMessage API_BASE fetch sessionId content
  = match fetch (API_BASE ++ "/api/sessions/" ++ Str.of_number sessionId
                   ++ "/messages")
            {| Client.method := Some "POST";
               Client.headers := Some [("Content-Type", "application/json")];
               Client.body := Some [("content", Client.JString content)];
               Client.credentials := Some "include" |}
    with
    | Client.Resolved res => Client.on_response res
    | Client.Rejected e => Client.Rejected e
    end
  /\ (forall other,
        Client.messages_path other = Client.messages_path sessionId ->
        other = sessionId)
  /\ (forall v,
        Client.sendMessage API_BASE fetch sessionId content
        = Client.Resolved v ->
        v = {| Client.sql := Client.sql v;
               Client.explanation := Client.explanation v;
               Client.raw_model_output := Client.raw_model_output v |}
        /\ exists res,
             fetch (API_BASE ++ Client.messages_path sessionId)
               (Client.init_of (Client.sendMessage_init content))
             = Client.Resolved res
             /\ Client.ok res = true
             /\ Client.json res = Client.Resolved v).
Proof.
  split; [reflexivity|]. split; [intros other; apply messages_path_inj|].
  intros v H. split; [now destruct v|].
  unfold Client.sendMessage, Client.request in H.
  destruct (fetch _ _) as [res|e]; [|discriminate].
  exists res. split; [reflexivity|].
  unfold Client.on_response in H.
  destruct (Client.ok res); [now split | discriminate].
Qed.

(** C8, as the claim has it, fails: a response whose status is ok and
    whose body is not JSON makes the wrapper throw what [res.json()]
    throws, so that "returns the parsed body if and only if the status is
    ok" does not hold for it. *)
Lemma request_ok_without_json :
  ~ ((exists v,
        Client.sendMessage Samples.base Samples.fetch_204 7 "how many orders?"
        = Client.Resolved v)
     <-> Client.ok Samples.no_content = true).
Proof.
  intros [_ H]. destruct (H eq_refl) as [v E]. discriminate E.
Qed.

(** C8, amended. For every response the back end gives, the request
    wrapper returns a value exactly when the status is ok and the body
    parses, and the value is then the parsed body; when the status is not
    ok it throws an [Error] whose message is made of the status code and
    the text of the body; when the status is ok it settles as [res.json()]
    does. *)
Theorem request_settles (T : Type) (API_BASE : string)
  (fetch : Client.Fetch T) (path : string) (options : Client.RequestInit)
  (res : Client.Response T) :
  fetch (API_BASE ++ path) (Client.init_of options) = Client.Resolved res ->
  (forall v,
     Client.request API_BASE fetch path options = Client.Resolved v
     <-> Client.ok res = true /\ Client.json res = Client.Resolved v)
  /\ (Client.ok res = false ->
      Client.request API_BASE fetch path options
      = Client.Rejected
          (Client.Error ("Request failed (" ++ Str.of_number (Client.status res)
                           ++ "): " ++ Client.text res)))
  /\ (Client.ok res = true ->
      Client.request API_BASE fetch path options = Client.json res).
Proof.
  intros F. rewrite (request_resolved _ _ _ _ _ F).
  unfold Client.on_response.
  destruct (Client.ok res); simpl; repeat split;
    try discriminate; try tauto.
  intros [E _]. discriminate E.
Qed.

Lemma request_settles_witness :
  Samples.fetch_500 (Samples.base ++ Client.messages_path 7)
    (Client.init_of (Client.sendMessage_init "how many orders?"))
  = Client.Resolved
      {| Client.ok := false; Client.status := 500;
         Client.text := "Internal Server Error";
         Client.json := Client.Rejected
                          {| Client.name := "SyntaxError";
                             Client.message := "Unexpected token I" |} |}
  /\ Client.request Samples.base Samples.fetch_500 (Client.messages_path 7)
       (Client.sendMessage_init "how many orders?")
     = Client.Rejected
         (Client.Error "Request failed (500): Internal Server Error").
Proof.
  split; [reflexivity|].
  exact (proj1 (proj2 (request_settles _ Samples.base Samples.fetch_500
                         (Client.messages_path 7)
                         (Client.sendMessage_init "how many orders?")
                         _ eq_refl))
           eq_refl).
Defined.

(** ** The application shell *)

Section ShellFacts.

Import Client AppShell.

Lemma same_session_refl (a : option Z) : Chat.same_session a a = true.
Proof. destruct a; simpl; [apply Z.eqb_refl | reflexivity]. Qed.

Lemma render_same (st : State) (view : Chat.View) :
  Chat.sessionId view = activeSessionId st ->
  render st view = {| shell := st; chat := view |}.
Proof.
  intros H. unfold render. simpl. now rewrite <- H, same_session_refl.
Qed.

End ShellFacts.

(** C9. Choosing another active schema, or none, is not retroactive: it
    changes the active-schema identifier and nothing else, so the session
    list, the active session and the chat view with its messages stay as
    they were, and the choice shows only in the [schema_id] of the
    create-session request made afterwards. *)
Theorem handleChangeSchema_not_retroactive (schemaId : option Z)
  (a : AppShell.App) :
  AppShell.rendered a ->
  let a' := AppShell.onChangeSchema schemaId a in
  AppShell.activeSchemaId (AppShell.shell a') = schemaId
  /\ AppShell.sessions (AppShell.shell a')
     = AppShell.sessions (AppShell.shell a)
  /\ AppShell.activeSessionId (AppShell.shell a')
     = AppShell.activeSessionId (AppShell.shell a)
  /\ AppShell.schemas (AppShell.shell a') = AppShell.schemas (AppShell.shell a)
  /\ AppShell.ready (AppShell.shell a') = AppShell.ready (AppShell.shell a)
  /\ AppShell.error (AppShell.shell a') = AppShell.error (AppShell.shell a)
  /\ AppShell.chat a' = AppShell.chat a
  /\ (forall API_BASE fetch,
        AppShell.SessionList_new API_BASE fetch (AppShell.shell a')
        = AppShell.handleCreateSession_settle
            (Client.request API_BASE fetch "/api/sessions"
               {| Client.method := Some "POST";
                  Client.headers := None;
                  Client.body :=
                    Some (("title", Client.JString "")
                          :: match schemaId with
                             | Some z => [("schema_id", Client.JNumber z)]
                             | None => []
                             end);
                  Client.credentials := None |})
            (AppShell.shell a')).
Proof.
  intros R a'. subst a'. unfold AppShell.onChangeSchema.
  rewrite render_same by exact R. simpl.
  repeat split. intros API_BASE fetch.
  unfold AppShell.SessionList_new, AppShell.handleCreateSession. simpl.
  unfold Client.createSession, Client.createSession_init. simpl.
  now destruct schemaId.
Qed.

Lemma handleChangeSchema_not_retroactive_witness :
  AppShell.rendered Samples.app
  /\ AppShell.sessions
       (AppShell.shell (AppShell.onChangeSchema None Samples.app))
     = AppShell.sessions Samples.shell
  /\ AppShell.chat (AppShell.onChangeSchema None Samples.app)
     = Chat.mount (Some 7%Z).
Proof.
  assert (R : AppShell.rendered Samples.app) by reflexivity.
  split; [exact R|].
  destruct (handleChangeSchema_not_retroactive None Samples.app R)
    as [_ [S [_ [_ [_ [_ [C _]]]]]]].
  split; [exact S | exact C].
Defined.

(** * Further properties of the front end *)

(** ** White space *)

Section TrimFacts.

Variable space : ascii -> bool.

Lemma rstrip_idempotent (s : string) :
  Str.rstrip space (Str.rstrip space s) = Str.rstrip space s.
Proof.
  induction s as [|c s IH]; simpl; [reflexivity|].
  destruct (Str.rstrip space s) as [|d r] eqn:E.
  - destruct (space c) eqn:Hc; simpl; [reflexivity|]. now rewrite Hc.
  - change (Str.rstrip space (String c (String d r)))
      with match Str.rstrip space (String d r) with
           | EmptyString => if space c then EmptyString else String c EmptyString
           | r' => String c r'
           end.
    now rewrite IH.
Qed.

(** What [lstrip] returns is empty or starts with a character that is
    not white space, and [rstrip] keeps such a first character. *)
Lemma lstrip_rstrip (s : string) :
  Str.lstrip space (Str.rstrip space (Str.lstrip space s))
  = Str.rstrip space (Str.lstrip space s).
Proof.
  induction s as [|c s IH]; simpl; [reflexivity|].
  destruct (space c) eqn:Hc; [exact IH|].
  simpl. destruct (Str.rstrip space s); rewrite ?Hc; simpl; now rewrite Hc.
Qed.

Lemma strip_idempotent (s : string) :
  Str.strip space (Str.strip space s) = Str.strip space s.
Proof.
  unfold Str.strip. now rewrite lstrip_rstrip, rstrip_idempotent.
Qed.

End TrimFacts.

(** ** The chat view, continued *)

Section ChatViewFacts.

Import Client Chat ChatView.

Lemma handleSubmit_begin_posts (sessionId : option Z) (c : Clock)
  (st st' : State) (s : Send) :
  handleSubmit_begin sessionId c st = (st', Some s) ->
  exists sid,
    sessionId = Some sid /\ sid <> 0%Z /\ Str.trim (input st) <> ""
    /\ s = {| to_session := sid; with_content := Str.trim (input st) |}.
Proof.
  unfold handleSubmit_begin. intros H.
  destruct (falsy sessionId || Str.falsy (Str.trim (input st))) eqn:G;
    [discriminate|].
  apply orb_false_iff in G. destruct G as [G1 G2].
  destruct sessionId as [sid|]; [|discriminate].
  injection H as _ <-. exists sid.
  repeat split; [now apply falsy_session | now apply falsy_trim].
Qed.

Lemma Forall_remove_nth {A : Type} (P : A -> Prop) (i : nat) (l : list A) :
  Forall P l -> Forall P (remove_nth i l).
Proof.
  intros H. revert i. induction H as [|x l Hx Hl IH]; intros [|i]; simpl;
    auto.
Qed.

Lemma next_well_posted (v v' : View) (e : Event) :
  Forall well_posted (sending v) -> next v e = Some v' ->
  Forall well_posted (sending v').
Proof.
  intros I H. destruct e as [s|c|i c r|sid|i r|b]; simpl in H.
  - now injection H as <-.
  - destruct (Composer_disabled _ _); [discriminate|].
    destruct (handleSubmit_begin (sessionId v) c (state v)) as [st [s|]] eqn:B;
      injection H as <-; simpl; [|now rewrite app_nil_r].
    apply Forall_app. split; [exact I|].
    apply handleSubmit_begin_posts in B.
    destruct B as [sid [_ [Hs [Hi ->]]]].
    constructor; [|constructor].
    unfold well_posted. simpl. repeat split; try assumption.
    apply strip_idempotent.
  - destruct (nth_error (sending v) i); [|discriminate].
    injection H as <-. simpl. now apply Forall_remove_nth.
  - destruct (same_session sid (sessionId v)); [now injection H as <-|].
    destruct (effect_begin sid (state v)). now injection H as <-.
  - destruct (nth_error (listing v) i); [|discriminate].
    now injection H as <-.
  - now injection H as <-.
Qed.

Lemma run_well_posted (es : list Event) (v v' : View) :
  Forall well_posted (sending v) -> run v es = Some v' ->
  Forall well_posted (sending v').
Proof.
  revert v; induction es as [|e es IH]; simpl; intros v I H.
  - now injection H as <-.
  - destruct (next v e) as [v1|] eqn:N; [|discriminate].
    exact (IH v1 (next_well_posted _ _ _ I N) H).
Qed.

End ChatViewFacts.

(** X2. Whatever the chat posts is a question worth posting: in every
    view the chat can get into, each pending [sendMessage] call carries a
    content that is not empty and has no white space left around it, for a
    session whose id is not 0. *)
Theorem posted_content_trimmed (sid0 : option Z) (v : Chat.View) :
  Chat.reachable sid0 v -> Forall ChatView.well_posted (Chat.sending v).
Proof.
  intros [es R]. apply (run_well_posted es (Chat.mount sid0)); [|exact R].
  unfold Chat.mount. destruct (Chat.effect_begin sid0 Chat.initial).
  constructor.
Qed.

Lemma posted_content_trimmed_witness :
  exists v,
    Chat.run (Chat.mount (Some 7%Z))
      [Chat.Typed "  how many orders?  "; Chat.Submitted Samples.clock1]
    = Some v
    /\ map (fun p => Chat.with_content (Chat.call p)) (Chat.sending v)
       = ["how many orders?"]
    /\ Forall ChatView.well_posted (Chat.sending v).
Proof.
  eexists. split; [reflexivity|]. split; [reflexivity|].
  exact (posted_content_trimmed (Some 7%Z) _
           (ex_intro _ [Chat.Typed "  how many orders?  ";
                        Chat.Submitted Samples.clock1] eq_refl)).
Defined.

Lemma submission_with_quiet_events_witness :
  exists v v1 v2 v3,
    Chat.run (Chat.mount (Some 7%Z)) [Chat.Typed " how many orders? "] = Some v
    /\ Chat.next v (Chat.Submitted Samples.clock1) = Some v1
    /\ Chat.run v1 [Chat.Typed "and yesterday?"; Chat.MotionPref true;
                    Chat.SessionProp (Some 8%Z)] = Some v2
    /\ Chat.next v2 (Chat.SendSettled 0 Samples.clock2
                       (Client.Resolved Samples.answer)) = Some v3
    /\ Chat.messages (Chat.state v3)
       = [Chat.optimisticMessage Samples.clock1 "how many orders?";
          Chat.assistantMessage false Samples.clock2 Samples.answer].
Proof.
  pose (get := fun o : option Chat.View =>
                 match o with Some v => v | None => Chat.mount None end).
  pose (v := get (Chat.run (Chat.mount (Some 7%Z))
                    [Chat.Typed " how many orders? "])).
  pose (v1 := get (Chat.next v (Chat.Submitted Samples.clock1))).
  pose (es := [Chat.Typed "and yesterday?"; Chat.MotionPref true;
               Chat.SessionProp (Some 8%Z)]).
  pose (v2 := get (Chat.run v1 es)).
  pose (v3 := get (Chat.next v2 (Chat.SendSettled 0 Samples.clock2
                                   (Client.Resolved Samples.answer)))).
  assert (Hs : 7%Z <> 0%Z) by discriminate.
  assert (Hi : Str.trim (Chat.input (Chat.state v)) <> "") by discriminate.
  exists v, v1, v2, v3.
  split; [reflexivity|]. split; [reflexivity|]. split; [reflexivity|].
  split; [reflexivity|].
  exact (submission_with_quiet_events v v1 v2 v3 7 Samples.clock1
           Samples.clock2 es (Client.Resolved Samples.answer)
           eq_refl Hs Hi eq_refl eq_refl eq_refl eq_refl eq_refl).
Defined.

Section InputFacts.

Import Client Chat ChatView.

(** Nothing but typing fills an empty input box. *)
Lemma next_untyped (v v' : View) (e : Event) :
  untyped e = true -> input (state v) = "" -> next v e = Some v' ->
  input (state v') = "".
Proof.
  intros U I H. destruct e as [s|c|i c r|sid|i r|b]; simpl in U, H;
    try discriminate.
  - destruct (Composer_disabled _ _); [discriminate|].
    rewrite handleSubmit_begin_rejects in H
      by (rewrite I; apply orb_true_r).
    now injection H as <-.
  - destruct (nth_error (sending v) i); [|discriminate].
    injection H as <-. now destruct r.
  - destruct (same_session sid (sessionId v)); [now injection H as <-|].
    unfold effect_begin in H. destruct (falsy sid); now injection H as <-.
  - destruct (nth_error (listing v) i); [|discriminate].
    injection H as <-. now destruct r.
  - now injection H as <-.
Qed.

Lemma run_untyped (es : list Event) (v v' : View) :
  forallb untyped es = true -> input (state v) = "" ->
  run v es = Some v' -> input (state v') = "".
Proof.
  revert v; induction es as [|e es IH]; simpl; intros v U I H.
  - now injection H as <-.
  - apply andb_true_iff in U. destruct U as [Ue Us].
    destruct (next v e) as [v1|] eqn:N; [|discriminate].
    exact (IH v1 Us (next_untyped v v1 e Ue I N) H).
Qed.

End InputFacts.

(** X3. An accepted submission empties the input box and takes the
    error banner away at once, and the box then stays empty through
    whatever follows other than typing or a click on a suggestion: the
    reply, be it a success or a failure, loads that settle, a change of
    session.  A request that fails does not give the question back to the
    box. *)
Theorem accepted_input_stays_empty (v v1 v2 : Chat.View) (sid : Z)
  (c : Chat.Clock) (es : list Chat.Event) :
  Chat.sessionId v = Some sid -> sid <> 0%Z ->
  Str.trim (Chat.input (Chat.state v)) <> "" ->
  Chat.next v (Chat.Submitted c) = Some v1 ->
  forallb ChatView.untyped es = true -> Chat.run v1 es = Some v2 ->
  Chat.input (Chat.state v1) = ""
  /\ Chat.error (Chat.state v1) = None
  /\ Chat.input (Chat.state v2) = "".
Proof.
  intros S Hs Hi N U R.
  assert (E : Chat.input (Chat.state v1) = ""
              /\ Chat.error (Chat.state v1) = None).
  { unfold Chat.next in N. rewrite S in N.
    rewrite (handleSubmit_begin_accepts sid c (Chat.state v) Hs Hi) in N.
    destruct (Chat.Composer_disabled _ _); [discriminate|].
    injection N as <-. now split. }
  destruct E as [E1 E2]. repeat split; try assumption.
  exact (run_untyped es v1 v2 U E1 R).
Qed.

Lemma accepted_input_stays_empty_witness :
  exists v v1 v2,
    Chat.run (Chat.mount (Some 7%Z)) Cases.asked = Some v
    /\ Chat.next v (Chat.Submitted Samples.clock1) = Some v1
    /\ Chat.run v1 [Chat.ListSettled 0 (Client.Rejected Samples.error_500);
                    Chat.SendSettled 0 Samples.clock2
                      (Client.Rejected Samples.error_500)] = Some v2
    /\ Chat.input (Chat.state v2) = "".
Proof.
  pose (get := fun o : option Chat.View =>
                 match o with Some v => v | None => Chat.mount None end).
  pose (v := get (Chat.run (Chat.mount (Some 7%Z)) Cases.asked)).
  pose (v1 := get (Chat.next v (Chat.Submitted Samples.clock1))).
  pose (es := [Chat.ListSettled 0 (Client.Rejected Samples.error_500);
               Chat.SendSettled 0 Samples.clock2
                 (Client.Rejected Samples.error_500)]).
  pose (v2 := get (Chat.run v1 es)).
  assert (Hs : 7%Z <> 0%Z) by discriminate.
  assert (Hi : Str.trim (Chat.input (Chat.state v)) <> "") by discriminate.
  exists v, v1, v2.
  split; [reflexivity|]. split; [reflexivity|]. split; [reflexivity|].
  exact (proj2 (proj2 (accepted_input_stays_empty v v1 v2 7 Samples.clock1
                         es eq_refl Hs Hi eq_refl eq_refl eq_refl))).
Defined.

(** X4. The continuation of [handleSubmit] does not look at the session:
    when the session is deselected while a request is pending, the list is
    cleared, and the reply that arrives afterwards is still appended, to
    the cleared list, and still fills the Latest SQL panel. *)
Theorem reply_after_deselect (v : Chat.View) (i : nat) (p : Chat.Pending)
  (c : Chat.Clock) (res : Client.ChatResponse) :
  Chat.sessionId v <> None ->
  nth_error (Chat.sending v) i = Some p ->
  exists v',
    Chat.run v [Chat.SessionProp None;
                Chat.SendSettled i c (Client.Resolved res)] = Some v'
    /\ Chat.sessionId v' = None
    /\ Chat.messages (Chat.state v')
       = [Chat.assistantMessage (Chat.captured_motion p) c res]
    /\ Chat.lastSql (Chat.state v') = Some res.
Proof.
  intros S N. unfold Chat.run, Chat.next at 1.
  destruct (Chat.sessionId v) as [sid|] eqn:E; [|now elim S].
  simpl Chat.same_session. cbv iota. simpl Chat.effect_begin. cbv iota beta.
  unfold Chat.next. simpl. rewrite N.
  eexists. split; [reflexivity|]. now repeat split.
Qed.

Lemma reply_after_deselect_witness :
  exists v v',
    Chat.run (Chat.mount (Some 7%Z)) Samples.waiting = Some v
    /\ Chat.sessionId v <> None
    /\ Chat.run v [Chat.SessionProp None;
                   Chat.SendSettled 0 Samples.clock2
                     (Client.Resolved Samples.answer)] = Some v'
    /\ Chat.messages (Chat.state v')
       = [Chat.assistantMessage false Samples.clock2 Samples.answer].
Proof.
  pose (v := match Chat.run (Chat.mount (Some 7%Z)) Samples.waiting with
             | Some v => v
             | None => Chat.mount None
             end).
  assert (S : Chat.sessionId v <> None) by discriminate.
  destruct (reply_after_deselect v 0 _ Samples.clock2 Samples.answer S eq_refl)
    as [v' [R [_ [M _]]]].
  exists v, v'. split; [reflexivity|]. split; [exact S|].
  split; [exact R | exact M].
Defined.

Section LogFacts.

Import Client Chat ChatView.

Lemma filter_bubbles (ms : list UIMessage.t) :
  filter is_bubble (map ChatMessage ms) = map ChatMessage ms.
Proof. induction ms as [|m ms IH]; simpl; [reflexivity | now rewrite IH]. Qed.

Lemma filter_prompts (ms : list UIMessage.t) :
  filter is_prompt (map ChatMessage ms) = [].
Proof. induction ms as [|m ms IH]; simpl; [reflexivity | exact IH]. Qed.

Lemma not_typing_bubble (ms : list UIMessage.t) :
  ~ In Typing (map ChatMessage ms).
Proof.
  intros H. apply in_map_iff in H. destruct H as [m [E _]]. discriminate E.
Qed.

Lemma not_prompt_bubble (ms : list UIMessage.t) :
  ~ In EmptyPrompt (map ChatMessage ms).
Proof.
  intros H. apply in_map_iff in H. destruct H as [m [E _]]. discriminate E.
Qed.

(** When the typing indicator is part of the log. *)
Lemma typing_shown (sessionId : option Z) (ms : list UIMessage.t)
  (loading : bool) :
  In Typing (MessageList sessionId ms loading)
  <-> loading = true /\ sessionId <> None.
Proof.
  unfold MessageList. split.
  - intros H. repeat (apply in_app_or in H; destruct H as [H|H]).
    + destruct sessionId; simpl in H; [contradiction|].
      destruct H as [H|[]]; discriminate H.
    + destruct (_ && _); simpl in H; [|contradiction].
      destruct H as [H|[]]; discriminate H.
    + now apply not_typing_bubble in H.
    + destruct loading, sessionId; simpl in H; try contradiction.
      split; [reflexivity | discriminate].
  - intros [-> S]. destruct sessionId as [sid|]; [|now elim S].
    repeat (apply in_or_app; right). now left.
Qed.

(** When the prompt for an empty session is part of the log. *)
Lemma empty_prompt_shown (sessionId : option Z) (ms : list UIMessage.t)
  (loading : bool) :
  In EmptyPrompt (MessageList sessionId ms loading)
  <-> sessionId <> None /\ ms = [] /\ loading = false.
Proof.
  unfold MessageList. split.
  - intros H. repeat (apply in_app_or in H; destruct H as [H|H]).
    + destruct sessionId; simpl in H; [contradiction|].
      destruct H as [H|[]]; discriminate H.
    + destruct sessionId, ms, loading; simpl in H; try contradiction.
      repeat split. discriminate.
    + now apply not_prompt_bubble in H.
    + destruct (_ && _); simpl in H; [|contradiction].
      destruct H as [H|[]]; discriminate H.
  - intros [S [-> ->]]. destruct sessionId as [sid|]; [|now elim S].
    simpl. now left.
Qed.

Lemma nth_error_last {A : Type} (l : list A) (x : A) :
  nth_error (l ++ [x]) (List.length l) = Some x.
Proof. induction l as [|y l IH]; simpl; [reflexivity | exact IH]. Qed.

Lemma remove_nth_last {A : Type} (l : list A) (x : A) :
  remove_nth (List.length l) (l ++ [x]) = l.
Proof. induction l as [|y l IH]; simpl; [reflexivity | now rewrite IH]. Qed.

Lemma same_session_differs (a b : option Z) :
  a <> b -> same_session a b = false.
Proof.
  destruct a as [x|], b as [y|]; simpl; intros H; try reflexivity.
  - apply Z.eqb_neq. congruence.
  - now elim H.
Qed.

End LogFacts.

(** X5. The message log is never blank: it always shows a prompt, a
    message or the typing indicator.  It shows every message, in order, as
    one bubble, at most one of the two prompts, and the prompt for an empty
    session only when there is no message and no typing indicator. *)
Theorem MessageList_never_blank (sessionId : option Z)
  (messages : list Chat.UIMessage.t) (loading : bool) :
  let rows := ChatView.MessageList sessionId messages loading in
  rows <> []
  /\ filter ChatView.is_bubble rows = map ChatView.ChatMessage messages
  /\ (List.length (filter ChatView.is_prompt rows) <= 1)%nat
  /\ (In ChatView.EmptyPrompt rows ->
      messages = [] /\ ~ In ChatView.Typing rows).
Proof.
  intros rows. subst rows.
  split; [|split; [|split]].
  - assert (H : exists r, In r (ChatView.MessageList sessionId messages
                                  loading)).
    { destruct sessionId as [sid|]; [|exists ChatView.SelectPrompt; now left].
      destruct loading.
      - exists ChatView.Typing. apply typing_shown. now split.
      - destruct messages as [|m ms].
        + exists ChatView.EmptyPrompt. apply empty_prompt_shown.
          now repeat split.
        + exists (ChatView.ChatMessage m). unfold ChatView.MessageList.
          simpl. now left. }
    destruct H as [r H]. intros E. now rewrite E in H.
  - unfold ChatView.MessageList.
    rewrite !filter_app, filter_bubbles.
    destruct sessionId, (_ && _), (loading && _); simpl;
      now rewrite ?app_nil_r.
  - unfold ChatView.MessageList.
    rewrite !filter_app, filter_prompts, !length_app.
    destruct sessionId, loading, messages; simpl; lia.
  - intros H. apply empty_prompt_shown in H. destruct H as [_ [-> ->]].
    split; [reflexivity|]. intros T. apply typing_shown in T.
    now destruct T.
Qed.

(** X6. In every view the chat can get into, the log shows the typing
    indicator exactly when a [sendMessage] call is pending and a session
    is selected. *)
Theorem typing_while_pending (sid0 : option Z) (v : Chat.View) :
  Chat.reachable sid0 v ->
  (In ChatView.Typing (ChatView.log v)
   <-> Chat.sending v <> [] /\ Chat.sessionId v <> None).
Proof.
  intros [es R].
  pose proof (run_in_flight es _ _ (mount_in_flight sid0) R) as I.
  unfold Chat.in_flight_matches in I.
  unfold ChatView.log. rewrite typing_shown.
  destruct (Chat.loading (Chat.state v)), (Chat.sending v);
    try discriminate I; split; intros [H S]; split;
    try assumption; try reflexivity; try discriminate; now elim H.
Qed.

Lemma typing_while_pending_witness :
  exists v,
    Chat.run (Chat.mount (Some 7%Z)) Samples.waiting = Some v
    /\ In ChatView.Typing (ChatView.log v).
Proof.
  pose (v := match Chat.run (Chat.mount (Some 7%Z)) Samples.waiting with
             | Some v => v
             | None => Chat.mount None
             end).
  exists v. split; [reflexivity|].
  apply (typing_while_pending (Some 7%Z) v
           (ex_intro _ Samples.waiting eq_refl)).
  split; discriminate.
Defined.

(** X7. What the back end answers to a failed turn shows in the banner,
    whatever state the answer arrives in: when the pending call settles as
    [sendMessage] does for a response whose status is not ok, the error
    banner reads "Request failed (status): body"; when the request itself
    fails, the banner has the message of that failure; in both cases the
    step leaves the message list as it finds it and takes the loading flag
    down. *)
Theorem failed_turn_in_banner (API_BASE : string)
  (fetch : Client.Fetch Client.ChatResponse) (v v' : Chat.View) (i : nat)
  (p : Chat.Pending) (c : Chat.Clock) :
  nth_error (Chat.sending v) i = Some p ->
  Chat.next v
    (Chat.SendSettled i c
       (Client.sendMessage API_BASE fetch (Chat.to_session (Chat.call p))
          (Chat.with_content (Chat.call p))))
  = Some v' ->
  match fetch (API_BASE ++ "/api/sessions/"
                 ++ Str.of_number (Chat.to_session (Chat.call p))
                 ++ "/messages")
          (Client.init_of
             (Client.sendMessage_init (Chat.with_content (Chat.call p))))
  with
  | Client.Resolved res =>
      Client.ok res = false ->
      Chat.error (Chat.state v')
      = Some ("Request failed (" ++ Str.of_number (Client.status res) ++ "): "
                ++ Client.text res)
      /\ Chat.messages (Chat.state v') = Chat.messages (Chat.state v)
      /\ Chat.loading (Chat.state v') = false
  | Client.Rejected e =>
      Chat.error (Chat.state v') = Some (Client.message e)
      /\ Chat.messages (Chat.state v') = Chat.messages (Chat.state v)
      /\ Chat.loading (Chat.state v') = false
  end.
Proof.
  intros P N. unfold Chat.next in N. rewrite P in N. injection N as <-.
  unfold Client.sendMessage, Client.request, Client.messages_path.
  cbn [Chat.state].
  destruct (fetch _ _) as [res|e]; simpl.
  - intros O. unfold Client.on_response. rewrite O. simpl. now repeat split.
  - now repeat split.
Qed.

Lemma failed_turn_in_banner_witness :
  exists v v',
    Chat.run (Chat.mount (Some 7%Z)) Samples.waiting = Some v
    /\ Chat.next v
         (Chat.SendSettled 0 Samples.clock2
            (Client.sendMessage Samples.base Samples.fetch_500 7
               "how many orders?"))
       = Some v'
    /\ Chat.error (Chat.state v')
       = Some "Request failed (500): Internal Server Error".
Proof.
  pose (get := fun o : option Chat.View =>
                 match o with Some v => v | None => Chat.mount None end).
  pose (v := get (Chat.run (Chat.mount (Some 7%Z)) Samples.waiting)).
  pose (v' := get (Chat.next v
                     (Chat.SendSettled 0 Samples.clock2
                        (Client.sendMessage Samples.base Samples.fetch_500 7
                           "how many orders?")))).
  exists v, v'. split; [reflexivity|]. split; [reflexivity|].
  exact (proj1 (failed_turn_in_banner Samples.base Samples.fetch_500 v v' 0
                  _ Samples.clock2 eq_refl eq_refl eq_refl)).
Defined.

(** X8. The effect that loads a session's messages does not look at
    the session either: when two sessions are selected one after the other
    and the first load settles last, the list shown is that of the first
    session while the second one is selected. *)
Theorem last_load_wins (v : Chat.View) (a b : Z)
  (da db : list Client.Message.t) :
  a <> 0%Z -> b <> 0%Z -> a <> b -> Chat.sessionId v <> Some a ->
  let n := List.length (Chat.listing v) in
  exists v',
    Chat.run v [Chat.SessionProp (Some a); Chat.SessionProp (Some b);
                Chat.ListSettled (S n) (Client.Resolved db);
                Chat.ListSettled n (Client.Resolved da)] = Some v'
    /\ Chat.sessionId v' = Some b
    /\ Chat.messages (Chat.state v') = map Chat.ui_of da
    /\ Chat.listing v' = Chat.listing v.
Proof.
  intros Ha Hb Hab Hv n. subst n.
  apply falsy_session in Ha, Hb.
  unfold Chat.run.
  unfold Chat.next at 1.
  rewrite (same_session_differs (Some a) (Chat.sessionId v))
    by (intros E; now elim Hv).
  unfold Chat.effect_begin. rewrite Ha.
  unfold Chat.next at 1. cbn [Chat.sessionId Chat.state Chat.listing].
  rewrite (same_session_differs (Some b) (Some a)) by congruence.
  unfold Chat.effect_begin. rewrite Hb.
  unfold Chat.next at 1. cbn [Chat.sessionId Chat.state Chat.listing].
  replace (S (List.length (Chat.listing v)))
    with (List.length (Chat.listing v ++ [a])%list)
    by (rewrite length_app; simpl; lia).
  rewrite nth_error_last, remove_nth_last.
  unfold Chat.next. cbn [Chat.sessionId Chat.state Chat.listing].
  rewrite nth_error_last, remove_nth_last.
  eexists. split; [reflexivity|]. now repeat split.
Qed.

Lemma last_load_wins_witness :
  exists v',
    Chat.run (Chat.mount None)
      [Chat.SessionProp (Some 7%Z); Chat.SessionProp (Some 8%Z);
       Chat.ListSettled 1 (Client.Resolved []);
       Chat.ListSettled 0
         (Client.Resolved
            [{| Client.Message.id := 1; Client.Message.role := Client.user;
                Client.Message.content := "how many orders?";
                Client.Message.created_at := "2023-11-14T22:00:00" |}])]
    = Some v'
    /\ Chat.sessionId v' = Some 8%Z
    /\ map Chat.UIMessage.content (Chat.messages (Chat.state v'))
       = ["how many orders?"].
Proof.
  assert (H7 : 7%Z <> 0%Z) by discriminate.
  assert (H8 : 8%Z <> 0%Z) by discriminate.
  assert (H78 : 7%Z <> 8%Z) by discriminate.
  assert (Hv : Chat.sessionId (Chat.mount None) <> Some 7%Z) by discriminate.
  destruct (last_load_wins (Chat.mount None) 7 8
              [{| Client.Message.id := 1; Client.Message.role := Client.user;
                  Client.Message.content := "how many orders?";
                  Client.Message.created_at := "2023-11-14T22:00:00" |}]
              [] H7 H8 H78 Hv) as [v' [R [S [M _]]]].
  exists v'. split; [exact R|]. split; [exact S|]. now rewrite M.
Defined.

(** ** The API client, continued *)

Section MessageFacts.

Import Client.

(** Decimal digits end where the closing parenthesis begins. *)
Lemma digits_then_paren (d d' : Decimal.uint) (t t' : string) :
  NilEmpty.string_of_uint d ++ "): " ++ t
  = NilEmpty.string_of_uint d' ++ "): " ++ t' ->
  d = d' /\ t = t'.
Proof.
  revert d'; induction d as [|d IH|d IH|d IH|d IH|d IH|d IH|d IH|d IH|d IH|d IH];
    intros [|d'|d'|d'|d'|d'|d'|d'|d'|d'|d']; simpl; intros H;
    try discriminate H;
    try (injection H as H; destruct (IH _ H) as [-> ->]; now split).
  injection H as ->. now split.
Qed.

Lemma number_then_paren (z z' : Z) (t t' : string) :
  Str.of_number z ++ "): " ++ t = Str.of_number z' ++ "): " ++ t' ->
  z = z' /\ t = t'.
Proof.
  unfold Str.of_number. intros H.
  assert (E : Z.to_int z = Z.to_int z' /\ t = t').
  { destruct (Z.to_int z) as [d|d], (Z.to_int z') as [d'|d']; simpl in H.
    - destruct (digits_then_paren _ _ _ _ H) as [-> ->]. now split.
    - destruct d; discriminate H.
    - destruct d'; discriminate H.
    - injection H as H.
      destruct (digits_then_paren _ _ _ _ H) as [-> ->]. now split. }
  destruct E as [E ->]. split; [|reflexivity].
  now apply DecimalZ.to_int_inj.
Qed.

End MessageFacts.

(** X9. The message of the error that [request] throws for a response
    whose status is not ok tells the status code and the body text apart:
    two such responses that lead to the same error have the same status
    and the same body. *)
Theorem request_error_tells_status (T : Type) (r1 r2 : Client.Response T) :
  Client.ok r1 = false -> Client.ok r2 = false ->
  Client.on_response r1 = Client.on_response r2 ->
  Client.status r1 = Client.status r2 /\ Client.text r1 = Client.text r2.
Proof.
  unfold Client.on_response. intros -> -> H. simpl in H.
  injection H as H. now apply number_then_paren.
Qed.

Lemma request_error_tells_status_witness :
  Client.on_response
    {| Client.ok := false; Client.status := 500;
       Client.text := "Internal Server Error";
       Client.json := Client.Resolved Samples.answer |}
  = Client.on_response
      {| Client.ok := false; Client.status := 500;
         Client.text := "Internal Server Error";
         Client.json := Client.Rejected Samples.error_500 |}
  /\ Client.text
       {| Client.ok := false; Client.status := 500;
          Client.text := "Internal Server Error";
          Client.json := Client.Resolved Samples.answer |}
     = "Internal Server Error".
Proof.
  split; [reflexivity|].
  exact (proj2 (request_error_tells_status _
                  {| Client.ok := false; Client.status := 500;
                     Client.text := "Internal Server Error";
                     Client.json := Client.Resolved Samples.answer |}
                  {| Client.ok := false; Client.status := 500;
                     Client.text := "Internal Server Error";
                     Client.json := Client.Rejected Samples.error_500 |}
                  eq_refl eq_refl eq_refl)).
Defined.

(** ** The application shell, continued *)

Section ShellRunFacts.

Import Client AppShell Shell.

Lemma next_listed (st st' : State) (e : Event) :
  no_load e = true -> active_listed st = true -> next st e = Some st' ->
  active_listed st' = true.
Proof.
  unfold active_listed. intros L I H.
  destruct e as [boot lists|[session|err]|schema|selected|i]; simpl in L, H;
    try discriminate L.
  - injection H as <-. simpl. now rewrite Z.eqb_refl.
  - injection H as <-. exact I.
  - injection H as <-. exact I.
  - injection H as <-. exact I.
  - destruct (nth_error (sessions st) i) as [s|] eqn:N; [|discriminate].
    injection H as <-. simpl. apply existsb_exists.
    exists s. split; [now apply nth_error_In in N | apply Z.eqb_refl].
Qed.

Lemma next_grows (st st' : State) (e : Event) :
  no_load e = true -> next st e = Some st' ->
  exists newer, sessions st' = (newer ++ sessions st)%list.
Proof.
  intros L H.
  destruct e as [boot lists|[session|err]|schema|selected|i]; simpl in L, H;
    try discriminate L.
  - injection H as <-. now exists [session].
  - injection H as <-. now exists [].
  - injection H as <-. now exists [].
  - injection H as <-. now exists [].
  - destruct (nth_error (sessions st) i); [|discriminate].
    injection H as <-. now exists [].
Qed.

Lemma run_listed_grows (es : list Event) (st st' : State) :
  forallb no_load es = true -> run st es = Some st' ->
  (active_listed st = true -> active_listed st' = true)
  /\ exists newer, sessions st' = (newer ++ sessions st)%list.
Proof.
  revert st; induction es as [|e es IH]; simpl; intros st L H.
  - injection H as <-. split; [auto | now exists []].
  - apply andb_true_iff in L. destruct L as [Le Ls].
    destruct (next st e) as [st1|] eqn:N; [|discriminate].
    destruct (IH st1 Ls H) as [K [newer G]].
    destruct (next_grows _ _ _ Le N) as [newer1 G1].
    split.
    + intros I. apply K. exact (next_listed _ _ _ Le I N).
    + exists (newer ++ newer1)%list. now rewrite G, G1, app_assoc.
Qed.

(** The settling of the mount effect keeps the active session listed
    unless it stores an empty list. *)
Lemma load_settle_listed (boot : outcome Api.Bootstrap)
  (lists : outcome (list Schema.t * list Session.t)) (st : State) :
  active_listed st || none_listed st = true ->
  active_listed (load_settle boot lists st)
  || none_listed (load_settle boot lists st) = true.
Proof.
  unfold load_settle, active_listed, none_listed. intros I.
  destruct boot as [who|e]; [|exact I].
  destruct lists as [[schemaList [|first rest]]|e]; simpl.
  - apply orb_true_r.
  - now rewrite Z.eqb_refl.
  - exact I.
Qed.

Lemma next_listed_or_none (st st' : State) (e : Event) :
  active_listed st || none_listed st = true -> next st e = Some st' ->
  active_listed st' || none_listed st' = true.
Proof.
  intros I H. destruct (no_load e) eqn:L.
  - destruct e as [boot lists|[session|err]|schema|selected|i];
      simpl in L, H; try discriminate L.
    + injection H as <-. unfold active_listed. simpl.
      now rewrite Z.eqb_refl.
    + injection H as <-. exact I.
    + injection H as <-. exact I.
    + injection H as <-. exact I.
    + destruct (nth_error (sessions st) i) as [s|] eqn:N; [|discriminate].
      injection H as <-. apply orb_true_iff. left.
      unfold active_listed. simpl. apply existsb_exists.
      exists s. split; [now apply nth_error_In in N | apply Z.eqb_refl].
  - destruct e; try discriminate L. simpl in H. injection H as <-.
    now apply load_settle_listed.
Qed.

End ShellRunFacts.

(** X10. The initial load of the shell ends with [ready] set in every
    case, and it is all or nothing: either the bootstrap and both lists
    have succeeded and the schemas, the sessions, and the first session
    with its schema as the active ones are in place, or an error message
    is on display and the lists and the active ids are as they were.  When
    the bootstrap fails, how the lists are answered plays no part. *)
Theorem load_all_or_nothing (API_BASE : string)
  (fetch_boot : Client.Fetch Api.Bootstrap)
  (fetch_schemas : Client.Fetch (list Client.Schema.t))
  (fetch_sessions : Client.Fetch (list Client.Session.t))
  (second_first : bool) (st : AppShell.State) :
  let st' := Shell.load API_BASE fetch_boot fetch_schemas fetch_sessions
               second_first st in
  AppShell.ready st' = true
  /\ ((exists who schemaList sessionList,
         Api.bootstrapUser API_BASE fetch_boot = Client.Resolved who
         /\ Api.listSchemas API_BASE fetch_schemas = Client.Resolved schemaList
         /\ Api.listSessions API_BASE fetch_sessions
            = Client.Resolved sessionList
         /\ AppShell.schemas st' = schemaList
         /\ AppShell.sessions st' = sessionList
         /\ AppShell.error st' = AppShell.error st
         /\ AppShell.activeSessionId st'
            = match sessionList with
              | first :: _ => Some (Client.Session.id first)
              | [] => AppShell.activeSessionId st
              end
         /\ AppShell.activeSchemaId st'
            = match sessionList with
              | first :: _ => Client.Session.schema_id first
              | [] => AppShell.activeSchemaId st
              end)
      \/ (exists err,
            AppShell.error st' = Some (Client.message err)
            /\ AppShell.schemas st' = AppShell.schemas st
            /\ AppShell.sessions st' = AppShell.sessions st
            /\ AppShell.activeSessionId st' = AppShell.activeSessionId st
            /\ AppShell.activeSchemaId st' = AppShell.activeSchemaId st))
  /\ (forall err,
        Api.bootstrapUser API_BASE fetch_boot = Client.Rejected err ->
        forall fetch_schemas' fetch_sessions' second_first',
          Shell.load API_BASE fetch_boot fetch_schemas' fetch_sessions'
            second_first' st
          = st').
Proof.
  intros st'. subst st'. unfold Shell.load, Shell.load_settle.
  split; [reflexivity|]. split.
  - destruct (Api.bootstrapUser API_BASE fetch_boot) as [who|e];
      [|right; exists e; now repeat split].
    destruct (Api.listSchemas API_BASE fetch_schemas) as [schemaList|e1],
      (Api.listSessions API_BASE fetch_sessions) as [sessionList|e2];
      simpl.
    + left. exists who, schemaList, sessionList.
      destruct sessionList; now repeat split.
    + right. exists e2. now repeat split.
    + right. exists e1. now repeat split.
    + right. exists (if second_first then e2 else e1). now repeat split.
  - intros err E. rewrite E. reflexivity.
Qed.

(** X11. Whatever happens to the shell from its first render on, the
    mount effect settling at any moment included, the active session is
    one of the listed sessions whenever a session is listed at all.  (The
    list can be empty with a session active: a session created before the
    mount effect stores an empty list.)  And through events other than
    the settling of the mount effect the active session stays listed once
    it is, and the list only grows at its head. *)
Theorem active_session_listed (es : list Shell.Event) (st : AppShell.State) :
  Shell.run Shell.initial es = Some st ->
  (Shell.active_listed st = true \/ AppShell.sessions st = [])
  /\ (forall es' st',
        forallb Shell.no_load es' = true -> Shell.run st es' = Some st' ->
        (Shell.active_listed st = true -> Shell.active_listed st' = true)
        /\ exists newer,
             AppShell.sessions st' = (newer ++ AppShell.sessions st)%list).
Proof.
  intros R. split.
  - assert (J : Shell.active_listed st || Shell.none_listed st = true).
    { revert R. generalize (eq_refl : Shell.active_listed Shell.initial
                                      || Shell.none_listed Shell.initial
                                      = true).
      generalize Shell.initial as st0.
      induction es as [|e es IH]; simpl; intros st0 I H.
      - now injection H as <-.
      - destruct (Shell.next st0 e) as [st1|] eqn:N; [|discriminate].
        exact (IH st1 (next_listed_or_none _ _ _ I N) H). }
    apply orb_true_iff in J. destruct J as [J|J]; [now left | right].
    unfold Shell.none_listed in J.
    now destruct (AppShell.sessions st).
  - intros es' st'. apply run_listed_grows.
Qed.

Lemma active_session_listed_witness :
  exists st,
    Shell.run Shell.initial Cases.created_before_load = Some st
    /\ AppShell.activeSessionId st = Some 9%Z
    /\ AppShell.sessions st = []
    /\ (Shell.active_listed st = true \/ AppShell.sessions st = []).
Proof.
  pose (st := match Shell.run Shell.initial Cases.created_before_load with
              | Some st => st
              | None => Shell.initial
              end).
  exists st. split; [reflexivity|]. split; [reflexivity|].
  split; [reflexivity|].
  exact (proj1 (active_session_listed Cases.created_before_load st eq_refl)).
Defined.

(** ** The schema form *)

(** X12. The schema form posts exactly when the name and the schema
    text are both non-empty, white space counting as text (nothing is
    trimmed); otherwise it leaves its state alone.  The payload carries the
    name and the schema text as typed, and a [description] member only
    when a description was typed. *)
Theorem SchemaForm_posts_when_filled (st : SchemaForm.State) :
  (SchemaForm.name st = "" \/ SchemaForm.rawSchema st = "" ->
   SchemaForm.handleSubmit_begin st = (st, None))
  /\ (SchemaForm.name st <> "" -> SchemaForm.rawSchema st <> "" ->
      exists st1 payload,
        SchemaForm.handleSubmit_begin st = (st1, Some payload)
        /\ SchemaForm.submitting st1 = true
        /\ Client.body (Api.createSchema_init payload)
           = Some (("name", Client.JString (SchemaForm.name st))
                   :: (if Str.falsy (SchemaForm.description st) then []
                       else [("description",
                              Client.JString (SchemaForm.description st))])
                   ++ [("raw_schema",
                        Client.JString (SchemaForm.rawSchema st))])%list).
Proof.
  unfold SchemaForm.handleSubmit_begin. split.
  - intros [-> | ->]; [reflexivity | now rewrite orb_true_r].
  - intros Hn Hr. apply falsy_trim in Hn, Hr. rewrite Hn, Hr. simpl.
    eexists. eexists. split; [reflexivity|]. split; [reflexivity|].
    unfold Api.createSchema_init, SchemaForm.or_undefined. simpl.
    now destruct (Str.falsy (SchemaForm.description st)).
Qed.

(** X13. A save that fails keeps what was typed: the three fields are
    as they were, the error is shown and the shell hears nothing.  A save
    that succeeds empties the fields, and the shell appends the created
    schema to its list and makes it the active one, so that the next "New
    session" asks for a session bound to it.  In both cases the form is no
    longer submitting. *)
Theorem SchemaForm_save_outcome (API_BASE : string)
  (fetch : Client.Fetch Client.Schema.t) (shell : AppShell.State)
  (st : SchemaForm.State) :
  SchemaForm.name st <> "" -> SchemaForm.rawSchema st <> "" ->
  let payload := {| Api.name := SchemaForm.name st;
                    Api.description :=
                      SchemaForm.or_undefined (SchemaForm.description st);
                    Api.raw_schema := SchemaForm.rawSchema st |} in
  let '(shell', st') := SchemaForm.handleSubmit API_BASE fetch shell st in
  SchemaForm.submitting st' = false
  /\ match Api.createSchema API_BASE fetch payload with
     | Client.Rejected err =>
         shell' = shell
         /\ SchemaForm.name st' = SchemaForm.name st
         /\ SchemaForm.description st' = SchemaForm.description st
         /\ SchemaForm.rawSchema st' = SchemaForm.rawSchema st
         /\ SchemaForm.error st' = Some (Client.message err)
     | Client.Resolved res =>
         SchemaForm.name st' = "" /\ SchemaForm.description st' = ""
         /\ SchemaForm.rawSchema st' = "" /\ SchemaForm.error st' = None
         /\ AppShell.schemas shell' = (AppShell.schemas shell ++ [res])%list
         /\ AppShell.activeSchemaId shell' = Some (Client.Schema.id res)
         /\ AppShell.sessions shell' = AppShell.sessions shell
         /\ Client.body
              (Client.createSession_init
                 (AppShell.create_payload (AppShell.activeSchemaId shell')))
            = Some [("title", Client.JString "");
                    ("schema_id", Client.JNumber (Client.Schema.id res))]
     end.
Proof.
  intros Hn Hr payload. subst payload.
  unfold SchemaForm.handleSubmit, SchemaForm.handleSubmit_begin.
  apply falsy_trim in Hn, Hr. rewrite Hn, Hr. simpl.
  destruct (Api.createSchema API_BASE fetch _) as [res|err]; simpl;
    now repeat split.
Qed.

Lemma SchemaForm_save_outcome_witness :
  SchemaForm.name Cases.filled <> ""
  /\ SchemaForm.rawSchema Cases.filled <> ""
  /\ SchemaForm.handleSubmit Samples.base Cases.fetch_409 Samples.shell
       Cases.filled
     = (Samples.shell,
        SchemaForm.setError (Some "Request failed (409): name taken")
          Cases.filled).
Proof.
  assert (Hn : SchemaForm.name Cases.filled <> "") by discriminate.
  assert (Hr : SchemaForm.rawSchema Cases.filled <> "") by discriminate.
  split; [exact Hn|]. split; [exact Hr|].
  pose proof (SchemaForm_save_outcome Samples.base Cases.fetch_409
                Samples.shell Cases.filled Hn Hr) as H.
  destruct (SchemaForm.handleSubmit Samples.base Cases.fetch_409
              Samples.shell Cases.filled) as [shell' st'] eqn:E.
  simpl in H. destruct H as [S [-> [N [D [R Er]]]]].
  f_equal. destruct st'; simpl in *. now subst.
Defined.

(** ** Signing in and out *)

(** X14. On the login page and on the signup page alike, a submission
    ends with the loading flag down and the two fields as typed; when the
    request succeeds the provider holds the user the back end returned,
    the page navigates to "/app" and shows no error; when it fails the
    provider is unchanged, nothing navigates, and the error's message is
    shown. *)
Theorem auth_page_outcome (API_BASE : string)
  (fetch : Client.Fetch Api.AuthUser) (auth : Auth.State)
  (st : AuthPage.State) :
  (let '(auth', st', nav) := LoginPage.handleSubmit API_BASE fetch auth st in
   AuthPage.loading st' = false
   /\ AuthPage.email st' = AuthPage.email st
   /\ AuthPage.password st' = AuthPage.password st
   /\ match Api.login API_BASE fetch (AuthPage.email st)
              (AuthPage.password st) with
      | Client.Resolved u =>
          Auth.user auth' = Some u /\ nav = Some "/app"
          /\ AuthPage.error st' = None
      | Client.Rejected err =>
          auth' = auth /\ nav = None
          /\ AuthPage.error st' = Some (Client.message err)
      end)
  /\ (let '(auth', st', nav) := SignupPage.handleSubmit API_BASE fetch auth st
      in
      AuthPage.loading st' = false
      /\ AuthPage.email st' = AuthPage.email st
      /\ AuthPage.password st' = AuthPage.password st
      /\ match Api.signup API_BASE fetch (AuthPage.email st)
                 (AuthPage.password st) with
         | Client.Resolved u =>
             Auth.user auth' = Some u /\ nav = Some "/app"
             /\ AuthPage.error st' = None
         | Client.Rejected err =>
             auth' = auth /\ nav = None
             /\ AuthPage.error st' = Some (Client.message err)
         end).
Proof.
  unfold LoginPage.handleSubmit, SignupPage.handleSubmit,
    AuthPage.handleSubmit, Auth.handleLogin, Auth.handleSignup.
  split.
  - destruct (Api.login API_BASE fetch _ _); simpl; now repeat split.
  - destruct (Api.signup API_BASE fetch _ _); simpl; now repeat split.
Qed.

(** X15. The Logout button signs the user out only when the logout
    request returns a value: for a response whose status is not ok, for a
    response with an ok status whose body is not JSON, and for a request
    that fails, the provider is left as it was, and nothing is reported. *)
Theorem logout_click_outcome (U : Type) (API_BASE : string)
  (fetch : Client.Fetch U) (st : Auth.State) :
  Auth.logout_click API_BASE fetch st
  = match fetch (API_BASE ++ "/api/auth/logout")
            {| Client.method := Some "POST";
               Client.headers := Some [("Content-Type", "application/json")];
               Client.body := None;
               Client.credentials := Some "include" |}
    with
    | Client.Resolved res =>
        if Client.ok res then
          match Client.json res with
          | Client.Resolved _ => Auth.setUser None st
          | Client.Rejected _ => st
          end
        else st
    | Client.Rejected _ => st
    end.
Proof.
  unfold Auth.logout_click, Auth.handleLogout, Api.logout, Client.request,
    Client.on_response.
  change (Client.init_of Api.logout_init)
    with {| Client.method := Some "POST";
            Client.headers := Some [("Content-Type", "application/json")];
            Client.body := None;
            Client.credentials := Some "include" |}.
  destruct (fetch _ _) as [res|e]; [|reflexivity].
  destruct (Client.ok res); simpl; [|reflexivity].
  now destruct (Client.json res).
Qed.
